(** * mcp-obsidian: the REST client and the tool registry

    A shallow embedding of [src/mcp_obsidian/obsidian.py] (class [Obsidian])
    and of the parts of [src/mcp_obsidian/tools.py] that gate start-up and
    file deletion, followed by the properties of the specification that are
    settled on it.

    Python strings are sequences of Unicode code points: a [pystr] is a list
    of code points, each an [N].  String literals of the source are written
    [str "..."]. *)

From Stdlib Require Import String Ascii ZArith NArith Lia List DecimalString.
From stdpp Require Import gmap list.

Set Default Proof Using "Type".
Local Open Scope N_scope.

(** ** Python strings *)

Definition pystr : Type := list N.

Definition str (s : string) : pystr :=
  List.map N_of_ascii (list_ascii_of_string s).

Definition ch_newline : N := 10.
Definition ch_space : N := 32.
Definition ch_hash : N := 35.
Definition ch_slash : N := 47.
Definition ch_backslash : N := 92.

(** [str.isspace] on one code point (CPython's [_PyUnicode_IsWhitespace]). *)
Definition is_space (c : N) : bool :=
  ((9 <=? c) && (c <=? 13)) || ((28 <=? c) && (c <=? 32))
  || (c =? 133) || (c =? 160) || (c =? 5760)
  || ((8192 <=? c) && (c <=? 8202))
  || (c =? 8232) || (c =? 8233) || (c =? 8239) || (c =? 8287) || (c =? 12288).

(** [s.lstrip], [s.rstrip] and [s.strip] for a set of characters given as a
    predicate. *)
Fixpoint lstrip_by (p : N -> bool) (s : pystr) : pystr :=
  match s with
  | [] => []
  | c :: t => if p c then lstrip_by p t else s
  end.

Definition rstrip_by (p : N -> bool) (s : pystr) : pystr :=
  rev (lstrip_by p (rev s)).

Definition strip_by (p : N -> bool) (s : pystr) : pystr :=
  rstrip_by p (lstrip_by p s).

(** [s.strip()] *)
Definition py_strip (s : pystr) : pystr := strip_by is_space s.

(** [s.strip(chars)] *)
Definition py_strip_chars (chars s : pystr) : pystr :=
  strip_by (fun c => existsb (N.eqb c) chars) s.

(** [s.startswith(prefix)] *)
Fixpoint py_startswith (prefix s : pystr) : bool :=
  match prefix, s with
  | [], _ => true
  | _ :: _, [] => false
  | a :: p, b :: t => (a =? b) && py_startswith p t
  end.

(** [sub in s] *)
Fixpoint py_contains (sub s : pystr) : bool :=
  py_startswith sub s ||
  match s with
  | [] => false
  | _ :: t => py_contains sub t
  end.

(** [s.replace(old, new)] for a non-empty [old]: a left-to-right scan over
    non-overlapping occurrences.  [skip] counts the characters of a matched
    occurrence that are still to be dropped. *)
Fixpoint replace_from (old new : pystr) (skip : nat) (s : pystr) : pystr :=
  match s with
  | [] => []
  | c :: t =>
      match skip with
      | S k => replace_from old new k t
      | O =>
          if py_startswith old s
          then new ++ replace_from old new (Nat.pred (length old)) t
          else c :: replace_from old new 0 t
      end
  end.

Definition py_replace (old new s : pystr) : pystr := replace_from old new 0 s.

(** [s.split(sep)] for a one-character separator. *)
Fixpoint py_split (sep : N) (s : pystr) : list pystr :=
  match s with
  | [] => [[]]
  | c :: t =>
      if c =? sep then [] :: py_split sep t
      else match py_split sep t with
           | h :: r => (c :: h) :: r
           | [] => [[c]]
           end
  end.

(** [s.split(sep, 1)]: at most one cut, at the first separator. *)
Fixpoint py_split1 (sep : N) (s : pystr) : list pystr :=
  match s with
  | [] => [[]]
  | c :: t =>
      if c =? sep then [[]; t]
      else match py_split1 sep t with
           | h :: r => (c :: h) :: r
           | [] => [[c]]
           end
  end.

(** [sep.join(parts)] *)
Fixpoint py_join (sep : pystr) (parts : list pystr) : pystr :=
  match parts with
  | [] => []
  | [p] => p
  | p :: rest => p ++ sep ++ py_join sep rest
  end.

(** [str(n)] for an integer. *)
Definition str_of_Z (z : Z) : pystr :=
  str (NilZero.string_of_int (Z.to_int z)).

(** [str(b)] for a boolean. *)
Definition str_of_bool (b : bool) : pystr :=
  if b then str "True" else str "False".

(** ** [Obsidian._normalize_path] *)

(** The loop [while '//' in path: path = path.replace('//', '/')]; every
    round with a true condition shortens [path], so [length path] rounds
    are enough (lemma [collapse_slashes_done]). *)
Fixpoint collapse_slashes (fuel : nat) (path : pystr) : pystr :=
  match fuel with
  | O => path
  | S fuel' =>
      if py_contains (str "//") path
      then collapse_slashes fuel' (py_replace (str "//") (str "/") path)
      else path
  end.

Definition _normalize_path (path : pystr) : pystr :=
  match path with
  | [] => []
  | _ =>
      let path := py_strip_chars (str "/") (py_strip path) in
      let path := py_replace [ch_backslash] (str "/") path in
      collapse_slashes (length path) path
  end.

(** ** Python values, exceptions and outcomes *)

Inductive pyval : Type :=
| PyNone
| PyBool (b : bool)
| PyInt (z : Z)
| PyStr (s : pystr)
| PyOther (type_name : pystr) (truth : bool) (rendering : pystr).

(** Truth value of an object, as tested by [if v] and [not v]. *)
Definition truthy (v : pyval) : bool :=
  match v with
  | PyNone => false
  | PyBool b => b
  | PyInt z => negb (z =? 0)%Z
  | PyStr s => negb (bool_decide (s = []))
  | PyOther _ b _ => b
  end.

(** [str(v)], which is also what an f-string field produces. *)
Definition py_str (v : pyval) : pystr :=
  match v with
  | PyNone => str "None"
  | PyBool b => str_of_bool b
  | PyInt z => str_of_Z z
  | PyStr s => s
  | PyOther _ _ r => r
  end.

Definition type_name_of (v : pyval) : pystr :=
  match v with
  | PyNone => str "NoneType"
  | PyBool _ => str "bool"
  | PyInt _ => str "int"
  | PyStr _ => str "str"
  | PyOther n _ _ => n
  end.

(** What [response.json()] gives: a dict, another JSON value (on which
    [.get] does not exist), or a decoding failure. *)
Inductive json_result : Type :=
| JsonDict (d : gmap pystr pyval)
| JsonNotDict (v : pyval)
| JsonInvalid (msg : pystr).

Record Response : Type := {
  status_code : Z;
  reason : pystr;
  url : pystr;
  content : list N;
  text : pystr;
  json : json_result
}.

Inductive exn : Type :=
| ValueError (msg : pystr)
| RuntimeError (msg : pystr)
| AttributeError (msg : pystr)
| JSONDecodeError (msg : pystr)
| RequestException (msg : pystr)
| HTTPError (msg : pystr) (response : Response)
| Exception (msg : pystr).

(** [str(e)] *)
Definition exn_str (e : exn) : pystr :=
  match e with
  | ValueError m | RuntimeError m | AttributeError m | JSONDecodeError m
  | RequestException m | HTTPError m _ | Exception m => m
  end.

Inductive outcome (A : Type) : Type :=
| Return (a : A)
| Raise (e : exn).
Arguments Return {A} a.
Arguments Raise {A} e.

(** The same method applied to an arbitrary object, as Python allows: the
    tool handlers pass JSON values through unchecked.  A falsy object takes
    the early return, a string is normalized, and any other object has no
    [strip] method. *)
Definition _normalize_path_obj (path : pyval) : outcome pystr :=
  if negb (truthy path) then Return []
  else match path with
       | PyStr s => Return (_normalize_path s)
       | _ => Raise (AttributeError
                (str "'" ++ type_name_of path ++ str "' object has no attribute 'strip'"))
       end.

(** ** The HTTP layer ([requests]) *)

Inductive http_method : Type := GET | POST | PUT | PATCH | DELETE.

Record Request : Type := {
  req_method : http_method;
  req_url : pystr;
  req_headers : list (pystr * pystr);
  req_data : option pystr;
  req_verify : bool;
  req_timeout : Z * Z
}.

(** What lies outside the source: the network with the server behind it, a
    state machine that answers a request with a response or fails to (the
    message of the [RequestException] then raised), and
    [urllib.parse.quote], which returns the quoted string or raises (it
    encodes its argument as UTF-8, and a lone surrogate has no encoding). *)
Class Runtime : Type := {
  world : Type;
  send : Request -> world -> (pystr + Response) * world;
  quote : pystr -> outcome pystr
}.

(** ** Computations of the client

    A computation runs against the state of the network, keeps the log of
    the requests issued so far and ends by returning or by raising. *)

Section Client.
Context `{rt : Runtime}.

Record state : Type := {
  net : world;
  sent : list Request
}.

Definition M (A : Type) : Type := state -> outcome A * state.

Definition ret {A} (a : A) : M A := fun s => (Return a, s).
Definition raise {A} (e : exn) : M A := fun s => (Raise e, s).
Definition bind {A B} (m : M A) (k : A -> M B) : M B :=
  fun s => match m s with
           | (Return a, s') => k a s'
           | (Raise e, s') => (Raise e, s')
           end.

(** [try: m  except Exception as e: h e] *)
Notation "'do' x <- m ;; k" := (bind m (fun x => k))
  (at level 10, x name, m at level 99, k at level 200, only parsing).

Definition try_except {A} (m : M A) (h : exn -> M A) : M A :=
  fun s => match m s with
           | (Return a, s') => (Return a, s')
           | (Raise e, s') => h e s'
           end.

(** [requests.get], [requests.patch], [requests.delete], ...: one request
    on the wire. *)
Definition requests_send (r : Request) : M Response :=
  fun s =>
    let '(res, w) := send r (net s) in
    let s' := {| net := w; sent := sent s ++ [r] |} in
    match res with
    | inl msg => (Raise (RequestException msg), s')
    | inr resp => (Return resp, s')
    end.

(** [response.raise_for_status()] *)
Definition raise_for_status (resp : Response) : M unit :=
  let sc := status_code resp in
  let msg kind :=
    str_of_Z sc ++ str " " ++ kind ++ str " Error: " ++ reason resp
    ++ str " for url: " ++ url resp in
  if ((400 <=? sc) && (sc <? 500))%Z then raise (HTTPError (msg (str "Client")) resp)
  else if ((500 <=? sc) && (sc <? 600))%Z then raise (HTTPError (msg (str "Server")) resp)
  else ret tt.

(** [response.json()] *)
Definition response_json (resp : Response) : M json_result :=
  match json resp with
  | JsonInvalid msg => raise (JSONDecodeError msg)
  | j => ret j
  end.

(** [error_data.get(key, default)] *)
Definition json_get (j : json_result) (key : pystr) (dflt : pyval) : M pyval :=
  match j with
  | JsonDict d => ret (default dflt (d !! key))
  | JsonNotDict v =>
      raise (AttributeError
               (str "'" ++ type_name_of v ++ str "' object has no attribute 'get'"))
  | JsonInvalid msg => raise (JSONDecodeError msg)
  end.

(** ** The client: class [Obsidian] *)

Record Obsidian : Type := {
  api_key : pystr;
  protocol : pystr;
  host : pystr;
  port : Z;
  verify_ssl : bool;
  timeout : Z * Z
}.

(** [Obsidian(api_key, protocol='https', host="127.0.0.1", port=27124,
    verify_ssl=False)], with [self.timeout = (3, 6)]. *)
Definition Obsidian_init (api_key : pystr) (host : pystr) : Obsidian :=
  {| api_key := api_key; protocol := str "https"; host := host;
     port := 27124; verify_ssl := false; timeout := (3, 6)%Z |}.

Definition nl : pystr := [ch_newline].

Definition nonempty {A} (l : list A) : bool :=
  match l with [] => false | _ => true end.

(** [d.get(key, default)] on a dict kept in insertion order. *)
Fixpoint dict_get (d : list (pystr * pystr)) (key dflt : pystr) : pystr :=
  match d with
  | [] => dflt
  | (k, v) :: rest => if bool_decide (k = key) then v else dict_get rest key dflt
  end.

Definition get_base_url (self : Obsidian) : pystr :=
  protocol self ++ str "://" ++ host self ++ str ":" ++ str_of_Z (port self).

Definition _get_headers (self : Obsidian) : list (pystr * pystr) :=
  [(str "Authorization", str "Bearer " ++ api_key self)].

(** The [except requests.HTTPError] handler of [_safe_call]. *)
Definition on_http_error {A} (self : Obsidian) (response : Response)
    (operation : option pystr) (context : option (list (pystr * pystr))) : M A :=
  let status_code := status_code response in
  do error_data <- (if nonempty (content response) then response_json response
                 else ret (JsonDict ∅)) ;;
  do code <- json_get error_data (str "errorCode") (PyInt (-1)) ;;
  do message <- json_get error_data (str "message") (PyStr (str "<unknown>")) ;;
  let error_msg := str "Error " ++ py_str code ++ str ": " ++ py_str message in
  let error_msg :=
    match operation with
    | Some ((_ :: _) as op) => error_msg ++ nl ++ str "Operation: " ++ op
    | _ => error_msg
    end in
  let error_msg :=
    match context with
    | Some ((_ :: _) as ctx) =>
        let context_details :=
          py_join (str ", ")
            (List.map (fun kv => fst kv ++ str "='" ++ snd kv ++ str "'")
               (List.filter (fun kv => nonempty (snd kv)) ctx)) in
        if nonempty context_details
        then error_msg ++ nl ++ str "Context: " ++ context_details
        else error_msg
    | _ => error_msg
    end in
  let error_msg :=
    if (status_code =? 404)%Z then
      if bool_decide (operation = Some (str "get_file_contents")) then
        let filepath :=
          match context with
          | Some ((_ :: _) as ctx) => dict_get ctx (str "filepath") []
          | _ => []
          end in
        error_msg ++ nl ++ str "Suggestion: Check if the file '" ++ filepath
        ++ str "' exists in your vault. Use list_files_in_vault() to see available files."
      else if bool_decide (operation = Some (str "patch_content")) then
        error_msg ++ nl
        ++ str "Suggestion: Verify that the target exists in the document. For headings, ensure exact match including whitespace and case."
      else error_msg
    else if (status_code =? 400)%Z then
      if bool_decide (operation = Some (str "patch_content")) then
        error_msg ++ nl
        ++ str "Suggestion: Check that your operation, target_type, and target values are valid. Ensure target is properly URL-encoded if it contains special characters."
      else error_msg
    else error_msg in
  raise (Exception error_msg).

(** The [except requests.exceptions.RequestException] handler of
    [_safe_call]. *)
Definition on_request_exception {A} (self : Obsidian) (e_str : pystr)
    (operation : option pystr) : M A :=
  let error_msg := str "Request failed: " ++ e_str in
  let error_msg :=
    match operation with
    | Some ((_ :: _) as op) => error_msg ++ nl ++ str "Operation: " ++ op
    | _ => error_msg
    end in
  let error_msg :=
    if py_contains (str "Connection refused") e_str then
      error_msg ++ nl
      ++ str "Suggestion: Verify that Obsidian is running and the Local REST API plugin is enabled. Check that the host ("
      ++ host self ++ str ") and port (" ++ str_of_Z (port self) ++ str ") are correct."
    else error_msg in
  raise (Exception error_msg).

Definition _safe_call {A} (self : Obsidian) (f : M A)
    (operation : option pystr) (context : option (list (pystr * pystr))) : M A :=
  try_except f (fun e =>
    match e with
    | HTTPError _ response => on_http_error self response operation context
    | RequestException msg => on_request_exception self msg operation
    | _ => raise e
    end).

Definition get_file_contents (self : Obsidian) (filepath : pystr) : M pystr :=
  let filepath := _normalize_path filepath in
  let url := get_base_url self ++ str "/vault/" ++ filepath in
  let call_fn :=
    do response <- requests_send
      {| req_method := GET; req_url := url; req_headers := _get_headers self;
         req_data := None; req_verify := verify_ssl self;
         req_timeout := timeout self |} ;;
    do _ <- raise_for_status response ;;
    ret (text response) in
  _safe_call self call_fn (Some (str "get_file_contents"))
    (Some [(str "filepath", filepath)]).

(** The one request that [get_file_contents] puts on the wire. *)
Definition get_file_request (self : Obsidian) (filepath : pystr) : Request :=
  {| req_method := GET;
     req_url := get_base_url self ++ str "/vault/" ++ _normalize_path filepath;
     req_headers := _get_headers self; req_data := None;
     req_verify := verify_ssl self; req_timeout := timeout self |}.

(** The two blocks that [get_batch_file_contents] appends to [result]. *)
Definition success_block (filepath content : pystr) : pystr :=
  str "# " ++ filepath ++ nl ++ nl ++ content ++ nl ++ nl ++ str "---" ++ nl ++ nl.

Definition error_block (filepath e_str : pystr) : pystr :=
  str "# " ++ filepath ++ nl ++ nl ++ str "Error reading file: " ++ e_str
  ++ nl ++ nl ++ str "---" ++ nl ++ nl.

(** The [for filepath in filepaths] loop, with [result] as accumulator. *)
Fixpoint batch_loop (self : Obsidian) (filepaths : list pystr)
    (result : list pystr) : M (list pystr) :=
  match filepaths with
  | [] => ret result
  | filepath :: rest =>
      do step <- try_except
                (do content <- get_file_contents self filepath ;;
                 ret (result ++ [success_block filepath content]))
                (fun e => ret (result ++ [error_block filepath (exn_str e)])) ;;
      batch_loop self rest step
  end.

Definition get_batch_file_contents (self : Obsidian) (filepaths : list pystr)
    : M pystr :=
  do result <- batch_loop self filepaths [] ;;
  ret (py_join [] result).

(** What the specification says of the batch read, as a relation: the
    paths are visited in order from the state the previous one left, and
    each contributes one block, a success block with the content read or an
    error block with the text of the exception. *)
Inductive batch_blocks (self : Obsidian)
    : list pystr -> state -> list pystr -> state -> Prop :=
| batch_done s : batch_blocks self [] s [] s
| batch_read filepath rest s content s1 blocks s2 :
    get_file_contents self filepath s = (Return content, s1) ->
    batch_blocks self rest s1 blocks s2 ->
    batch_blocks self (filepath :: rest) s
      (success_block filepath content :: blocks) s2
| batch_failed filepath rest s e s1 blocks s2 :
    get_file_contents self filepath s = (Raise e, s1) ->
    batch_blocks self rest s1 blocks s2 ->
    batch_blocks self (filepath :: rest) s
      (error_block filepath (exn_str e) :: blocks) s2.

(** The same, with the text of each block written out as the
    specification has it: a header line with the path as it was given, an
    empty line, the content of the file or [Error reading file: ] and the
    text of the exception, an empty line, a rule and an empty line. *)
Inductive batch_text (self : Obsidian)
    : list pystr -> state -> list pystr -> state -> Prop :=
| batch_text_done s : batch_text self [] s [] s
| batch_text_read filepath rest s content s1 blocks s2 :
    get_file_contents self filepath s = (Return content, s1) ->
    batch_text self rest s1 blocks s2 ->
    batch_text self (filepath :: rest) s
      ((str "# " ++ filepath ++ [ch_newline; ch_newline] ++ content
        ++ [ch_newline; ch_newline] ++ str "---" ++ [ch_newline; ch_newline])
       :: blocks) s2
| batch_text_failed filepath rest s e s1 blocks s2 :
    get_file_contents self filepath s = (Raise e, s1) ->
    batch_text self rest s1 blocks s2 ->
    batch_text self (filepath :: rest) s
      ((str "# " ++ filepath ++ [ch_newline; ch_newline]
        ++ str "Error reading file: " ++ exn_str e
        ++ [ch_newline; ch_newline] ++ str "---" ++ [ch_newline; ch_newline])
       :: blocks) s2.

(** A call of a function that touches nothing and returns or raises. *)
Definition lift_outcome {A} (o : outcome A) : M A := fun s => (o, s).

Definition valid_operations : list pystr :=
  [str "append"; str "prepend"; str "replace"].

Definition valid_target_types : list pystr :=
  [str "heading"; str "block"; str "frontmatter"].

Definition patch_content (self : Obsidian)
    (filepath operation target_type target content : pystr)
    (create_if_missing trim_whitespace : bool) : M unit :=
  if negb (bool_decide (operation ∈ valid_operations)) then
    raise (ValueError (str "Operation must be one of: "
                       ++ py_join (str ", ") valid_operations))
  else if negb (bool_decide (target_type ∈ valid_target_types)) then
    raise (ValueError (str "Target type must be one of: "
                       ++ py_join (str ", ") valid_target_types))
  else if negb (nonempty target) then
    raise (ValueError (str "Target cannot be empty"))
  else
    let filepath := _normalize_path filepath in
    let url := get_base_url self ++ str "/vault/" ++ filepath in
    do quoted <- lift_outcome (quote target) ;;
    let headers :=
      _get_headers self ++
      [(str "Content-Type", str "text/markdown");
       (str "Operation", operation);
       (str "Target-Type", target_type);
       (str "Target", quoted)] in
    let headers :=
      if create_if_missing
      then headers ++ [(str "Create-Target-If-Missing", str "true")]
      else headers in
    let headers :=
      if trim_whitespace
      then headers ++ [(str "Trim-Target-Whitespace", str "true")]
      else headers in
    let call_fn :=
      do response <- requests_send
        {| req_method := PATCH; req_url := url; req_headers := headers;
           req_data := Some content; req_verify := verify_ssl self;
           req_timeout := timeout self |} ;;
      do _ <- raise_for_status response ;;
      ret tt in
    let context :=
      [(str "filepath", filepath);
       (str "operation", operation);
       (str "target_type", target_type);
       (str "target", target);
       (str "create_if_missing", str_of_bool create_if_missing);
       (str "trim_whitespace", str_of_bool trim_whitespace)] in
    _safe_call self call_fn (Some (str "patch_content")) (Some context).

(** [delete_file] is called by the tool handler with the raw JSON value of
    the [filepath] argument. *)
Definition delete_file (self : Obsidian) (filepath : pyval) : M unit :=
  do filepath <- lift_outcome (_normalize_path_obj filepath) ;;
  let url := get_base_url self ++ str "/vault/" ++ filepath in
  let call_fn :=
    do response <- requests_send
      {| req_method := DELETE; req_url := url; req_headers := _get_headers self;
         req_data := None; req_verify := verify_ssl self;
         req_timeout := timeout self |} ;;
    do _ <- raise_for_status response ;;
    ret tt in
  _safe_call self call_fn (Some (str "delete_file"))
    (Some [(str "filepath", filepath)]).

(** ** [Obsidian.find_headings] *)

(** One entry of the returned list: the dict with keys ['level'], ['text']
    and ['path']. *)
Record heading_info : Type := {
  h_level : nat;
  h_text : pystr;
  h_path : pystr
}.

(** The inner loop [for char in line.strip(): if char == '#': level += 1
    else: break]. *)
Fixpoint count_level (s : pystr) : nat :=
  match s with
  | [] => O
  | c :: t => if c =? ch_hash then S (count_level t) else O
  end.

(** The test of line 660. *)
Definition is_heading_line (line : pystr) : bool :=
  py_startswith (str "#") (py_strip line) && py_contains (str " ") (py_strip line).

(** The body of [for line in content.split('\n')], with [headings] as
    accumulator. *)
Definition heading_step (headings : list heading_info) (line : pystr)
    : list heading_info :=
  if is_heading_line line then
    let level := count_level (py_strip line) in
    let text := py_strip (nth 1 (py_split1 ch_space (py_strip line)) []) in
    let path :=
      match List.find (fun h => (h_level h <? level)%nat) (rev headings) with
      | Some h => [h_text h]
      | None => []
      end in
    let path := path ++ [text] in
    headings ++ [{| h_level := level; h_text := text;
                    h_path := py_join (str "::") path |}]
  else headings.

Definition scan_headings (content : pystr) : list heading_info :=
  fold_left heading_step (py_split ch_newline content) [].

Definition find_headings (self : Obsidian) (filepath : pystr)
    : M (list heading_info) :=
  try_except
    (do content <- get_file_contents self filepath ;;
     ret (scan_headings content))
    (fun e => ret []).

End Client.

Arguments state {rt}.
Arguments M {rt} A.

(** ** The tool registry: [tools.py] *)

Module Tools.
Section Registry.
Context `{rt : Runtime}.

Notation "'do' x <- m ;; k" := (bind m (fun x => k))
  (at level 10, x name, m at level 99, k at level 200, only parsing).

(** The module-level names [api_key] and [obsidian_host]. *)
Record globals : Type := {
  g_api_key : pystr;
  g_obsidian_host : pystr
}.

(** [os.getenv(key, default)] *)
Definition getenv (environ : gmap pystr pystr) (key dflt : pystr) : pystr :=
  default dflt (environ !! key).

(** The statements run when the module is imported, lines 12 to 16;
    [cwd] is [os.getcwd()]. *)
Definition module_init (environ : gmap pystr pystr) (cwd : pystr)
    : outcome globals :=
  let api_key := getenv environ (str "OBSIDIAN_API_KEY") [] in
  let obsidian_host := getenv environ (str "OBSIDIAN_HOST") (str "127.0.0.1") in
  if bool_decide (api_key = []) then
    Raise (ValueError
             (str "OBSIDIAN_API_KEY environment variable required. Working directory: "
              ++ cwd))
  else Return {| g_api_key := api_key; g_obsidian_host := obsidian_host |}.

Record TextContent : Type := {
  tc_type : pystr;
  tc_text : pystr
}.

(** [DeleteFileToolHandler.run_tool] *)
Definition run_tool (g : globals) (args : gmap pystr pyval)
    : M (list TextContent) :=
  match args !! str "filepath" with
  | None => raise (RuntimeError (str "filepath argument missing in arguments"))
  | Some filepath =>
      if negb (truthy (default (PyBool false) (args !! str "confirm"))) then
        raise (RuntimeError (str "confirm must be set to true to delete a file"))
      else
        let api := Obsidian_init (g_api_key g) (g_obsidian_host g) in
        do _ <- delete_file api filepath ;;
        ret [{| tc_type := str "text";
                tc_text := str "Successfully deleted " ++ py_str filepath |}]
  end.

End Registry.
End Tools.

(** ** Two servers for the examples

    [vault_rt]: the API in front of a vault given as a list of files; a
    missing file is answered 404 with the JSON error body of the API.
    [gateway_rt]: something else listening on the port, which answers every
    request 404 with a body that is not JSON. *)

Module Demo.

Definition vault_prefix : pystr := str "https://127.0.0.1:27124/vault/".

Fixpoint lookup_file (files : list (pystr * pystr)) (path : pystr)
    : option pystr :=
  match files with
  | [] => None
  | (p, c) :: rest => if bool_decide (p = path) then Some c else lookup_file rest path
  end.

Definition ok_response (u body : pystr) : Response :=
  {| status_code := 200; reason := str "OK"; url := u; content := body;
     text := body; json := JsonInvalid (str "Expecting value: line 1 column 1 (char 0)") |}.

Definition not_found_response (u : pystr) : Response :=
  let q := [34] in
  let body := str "{" ++ q ++ str "message" ++ q ++ str ": " ++ q ++ str "Not Found"
              ++ q ++ str ", " ++ q ++ str "errorCode" ++ q ++ str ": 40400}" in
  {| status_code := 404; reason := str "Not Found"; url := u; content := body;
     text := body;
     json := JsonDict {[ str "message" := PyStr (str "Not Found");
                         str "errorCode" := PyInt 40400 ]} |}.

Definition vault_send (r : Request) (files : list (pystr * pystr))
    : (pystr + Response) * list (pystr * pystr) :=
  if py_startswith vault_prefix (req_url r) then
    let path := drop (length vault_prefix) (req_url r) in
    match req_method r, lookup_file files path with
    | GET, Some c => (inr (ok_response (req_url r) c), files)
    | DELETE, Some _ =>
        (inr (ok_response (req_url r) []),
         List.filter (fun pc => negb (bool_decide (fst pc = path))) files)
    | _, _ => (inr (not_found_response (req_url r)), files)
    end
  else (inl (str "Connection refused"), files).

Definition vault_rt : Runtime :=
  {| world := list (pystr * pystr); send := vault_send; quote := fun s => Return s |}.

Definition html_not_found (u : pystr) : Response :=
  let body := str "<html>404 Not Found</html>" in
  {| status_code := 404; reason := str "Not Found"; url := u; content := body;
     text := body;
     json := JsonInvalid (str "Expecting value: line 1 column 1 (char 0)") |}.

Definition gateway_rt : Runtime :=
  {| world := unit; send := fun r w => (inr (html_not_found (req_url r)), w);
     quote := fun s => Return s |}.

Definition client : Obsidian := Obsidian_init (str "secret") (str "127.0.0.1").

Definition abc_content : pystr :=
  str "# A" ++ nl ++ str "## B" ++ nl ++ str "# C".

Definition start (files : list (pystr * pystr)) : @state vault_rt :=
  @Build_state vault_rt files [].

Definition demo_globals : Tools.globals :=
  {| Tools.g_api_key := str "secret"; Tools.g_obsidian_host := str "127.0.0.1" |}.

(** Arguments of the delete tool: [confirm] given as the string ["no"], and
    as the boolean [false]. *)
Definition confirm_no : gmap pystr pyval :=
  {[ str "filepath" := PyStr (str "a.md"); str "confirm" := PyStr (str "no") ]}.

Definition confirm_false : gmap pystr pyval :=
  {[ str "filepath" := PyStr (str "a.md"); str "confirm" := PyBool false ]}.

End Demo.

(** ** The rest of the client: writes and the helper methods *)

Section Helpers.
Context `{rt : Runtime}.

Notation "'do' x <- m ;; k" := (bind m (fun x => k))
  (at level 10, x name, m at level 99, k at level 200, only parsing).

(** The headers of [patch_content], lines 306 to 318; [quoted] is what
    [urllib.parse.quote(target)] returned. *)
Definition patch_headers (self : Obsidian) (operation target_type quoted : pystr)
    (create_if_missing trim_whitespace : bool) : list (pystr * pystr) :=
  (_get_headers self ++
   [(str "Content-Type", str "text/markdown");
    (str "Operation", operation);
    (str "Target-Type", target_type);
    (str "Target", quoted)])
  ++ (if create_if_missing
      then [(str "Create-Target-If-Missing", str "true")] else [])
  ++ (if trim_whitespace
      then [(str "Trim-Target-Whitespace", str "true")] else []).

(** The one request that [patch_content] puts on the wire, [quoted] being
    the quoted target. *)
Definition patch_request (self : Obsidian)
    (filepath operation target_type quoted content : pystr)
    (create_if_missing trim_whitespace : bool) : Request :=
  {| req_method := PATCH;
     req_url := get_base_url self ++ str "/vault/" ++ _normalize_path filepath;
     req_headers := patch_headers self operation target_type quoted
                      create_if_missing trim_whitespace;
     req_data := Some content;
     req_verify := verify_ssl self; req_timeout := timeout self |}.

(** The request of [append_content]. *)
Definition append_request (self : Obsidian) (filepath content : pystr) : Request :=
  {| req_method := POST;
     req_url := get_base_url self ++ str "/vault/" ++ _normalize_path filepath;
     req_headers := _get_headers self ++ [(str "Content-Type", str "text/markdown")];
     req_data := Some content;
     req_verify := verify_ssl self; req_timeout := timeout self |}.

Definition append_content (self : Obsidian) (filepath content : pystr) : M unit :=
  let filepath := _normalize_path filepath in
  let url := get_base_url self ++ str "/vault/" ++ filepath in
  let call_fn :=
    do response <- requests_send
      {| req_method := POST; req_url := url;
         req_headers := _get_headers self ++ [(str "Content-Type", str "text/markdown")];
         req_data := Some content; req_verify := verify_ssl self;
         req_timeout := timeout self |} ;;
    do _ <- raise_for_status response ;;
    ret tt in
  _safe_call self call_fn (Some (str "append_content"))
    (Some [(str "filepath", filepath)]).

(** [get_periodic_note]: [_safe_call] is given neither operation nor
    context. *)
Definition get_periodic_note (self : Obsidian) (period : pystr) : M pystr :=
  let url := get_base_url self ++ str "/periodic/" ++ period ++ str "/" in
  let call_fn :=
    do response <- requests_send
      {| req_method := GET; req_url := url; req_headers := _get_headers self;
         req_data := None; req_verify := verify_ssl self;
         req_timeout := timeout self |} ;;
    do _ <- raise_for_status response ;;
    ret (text response) in
  _safe_call self call_fn None None.

Definition add_to_heading (self : Obsidian)
    (filepath heading content position : pystr) : M unit :=
  let operation :=
    if bool_decide (position = str "end") then str "append" else str "prepend" in
  patch_content self filepath operation (str "heading") heading content false true.

Definition set_frontmatter_field (self : Obsidian)
    (filepath field value : pystr) (create_if_missing : bool) : M unit :=
  patch_content self filepath (str "replace") (str "frontmatter") field value
    create_if_missing false.

(** [s.lstrip(chars)] *)
Definition py_lstrip_chars (chars s : pystr) : pystr :=
  lstrip_by (fun c => existsb (N.eqb c) chars) s.

(** The loop of [add_tag] over the lines of the note, lines 549 to 556:
    [in_frontmatter] flips at every line that trims to [---], and the first
    line inside that starts with [tags:] is the result. *)
Fixpoint scan_tags_line (lines : list pystr) (in_frontmatter : bool)
    : option pystr :=
  match lines with
  | [] => None
  | line :: rest =>
      if bool_decide (py_strip line = str "---")
      then scan_tags_line rest (negb in_frontmatter)
      else if in_frontmatter && py_startswith (str "tags:") (py_strip line)
      then Some (py_strip line)
      else scan_tags_line rest in_frontmatter
  end.

(** The three calls of [patch_content] in [add_tag]. *)
Definition patch_tags_append (self : Obsidian) (filepath tag : pystr) : M unit :=
  patch_content self filepath (str "append") (str "frontmatter") (str "tags")
    (str ", " ++ tag) true false.

Definition patch_tags_replace (self : Obsidian) (filepath tag : pystr) : M unit :=
  patch_content self filepath (str "replace") (str "frontmatter") (str "tags")
    (str "[" ++ tag ++ str "]") true false.

Definition add_tag (self : Obsidian) (filepath tag : pystr) : M unit :=
  let tag := py_lstrip_chars (str "#") tag in
  try_except
    (do content <- get_file_contents self filepath ;;
     let tags_line := scan_tags_line (py_split ch_newline content) false in
     match tags_line with
     | Some (_ :: _) => patch_tags_append self filepath tag
     | _ => patch_tags_replace self filepath tag
     end)
    (fun _ => patch_tags_replace self filepath tag).

(** The request of the two [requests.put] calls of
    [create_or_update_note]; [filepath] is the path already normalized by
    the caller. *)
Definition put_request (self : Obsidian) (filepath content : pystr) : Request :=
  {| req_method := PUT;
     req_url := get_base_url self ++ str "/vault/" ++ filepath;
     req_headers := _get_headers self ++ [(str "Content-Type", str "text/markdown")];
     req_data := Some content;
     req_verify := verify_ssl self; req_timeout := timeout self |}.

(** The two inner [call_fn] of [create_or_update_note] under [_safe_call];
    they differ in the [action] of the context only. *)
Definition put_content (self : Obsidian) (filepath content action : pystr)
    : M unit :=
  let call_fn :=
    do response <- requests_send (put_request self filepath content) ;;
    do _ <- raise_for_status response ;;
    ret tt in
  _safe_call self call_fn (Some (str "create_or_update_note"))
    (Some [(str "filepath", filepath); (str "action", action)]).

Definition create_or_update_note (self : Obsidian)
    (filepath content : pystr) (overwrite : bool) : M unit :=
  let filepath := _normalize_path filepath in
  try_except
    (do existing_content <- get_file_contents self filepath ;;
     if overwrite
     then put_content self filepath content (str "overwrite")
     else append_content self filepath content)
    (fun _ => put_content self filepath content (str "create")).

(** [try_patch_content] returns the pair [(success, error_message)]. *)
Definition try_patch_content (self : Obsidian)
    (filepath operation target_type target content : pystr)
    (fallback_operation : option pystr) : M (bool * option pystr) :=
  try_except
    (do _ <- patch_content self filepath operation target_type target content
               false false ;;
     ret (true, None))
    (fun e =>
       match fallback_operation with
       | Some ((_ :: _) as fallback) =>
           try_except
             (do _ <- patch_content self filepath fallback target_type target
                        content false false ;;
              ret (true, None))
             (fun fallback_e => ret (false, Some (exn_str fallback_e)))
       | _ => ret (false, Some (exn_str e))
       end).

(** The path that the scan gives a heading of text [text] and level
    [level] coming after the entries [earlier]. *)
Definition path_after (earlier : list heading_info) (level : nat) (text : pystr)
    : pystr :=
  match List.find (fun h => (h_level h <? level)%nat) (rev earlier) with
  | Some h => h_text h ++ str "::" ++ text
  | None => text
  end.

End Helpers.

(** [PeriodicNotesToolHandler] of [tools.py]. *)
Module PeriodicNotesToolHandler.
Section Handler.
Context `{rt : Runtime}.

Notation "'do' x <- m ;; k" := (bind m (fun x => k))
  (at level 10, x name, m at level 99, k at level 200, only parsing).

Definition valid_periods : list pystr :=
  [str "daily"; str "weekly"; str "monthly"; str "quarterly"; str "yearly"].

(** [period not in valid_periods] for the JSON value of the argument: only
    a string can equal one of the five strings. *)
Definition period_in_valid (period : pyval) : option pystr :=
  match period with
  | PyStr p => if bool_decide (p ∈ valid_periods) then Some p else None
  | _ => None
  end.

Definition run_tool (g : Tools.globals) (args : gmap pystr pyval)
    : M (list Tools.TextContent) :=
  match args !! str "period" with
  | None => raise (RuntimeError (str "period argument missing in arguments"))
  | Some period =>
      match period_in_valid period with
      | None =>
          raise (RuntimeError
                   (str "Invalid period: " ++ py_str period
                    ++ str ". Must be one of: "
                    ++ py_join (str ", ") valid_periods))
      | Some p =>
          let api := Obsidian_init (Tools.g_api_key g) (Tools.g_obsidian_host g) in
          do content <- get_periodic_note api p ;;
          ret [{| Tools.tc_type := str "text"; Tools.tc_text := content |}]
      end
  end.

End Handler.
End PeriodicNotesToolHandler.

(** A third server for the examples: it holds the vault of [vault_rt] and
    accepts every write ([PUT], [POST], [PATCH]) with 204, a [PUT] storing
    the body under the path. *)
Module Demo2.

Definition no_content (u : pystr) : Response :=
  {| status_code := 204; reason := str "No Content"; url := u; content := [];
     text := [];
     json := JsonInvalid (str "Expecting value: line 1 column 1 (char 0)") |}.

Definition store_send (r : Request) (files : list (pystr * pystr))
    : (pystr + Response) * list (pystr * pystr) :=
  if py_startswith Demo.vault_prefix (req_url r) then
    let path := drop (length Demo.vault_prefix) (req_url r) in
    match req_method r with
    | GET =>
        match Demo.lookup_file files path with
        | Some c => (inr (Demo.ok_response (req_url r) c), files)
        | None => (inr (Demo.not_found_response (req_url r)), files)
        end
    | PUT =>
        (inr (no_content (req_url r)),
         (path, default [] (req_data r))
         :: List.filter (fun pc => negb (bool_decide (fst pc = path))) files)
    | _ => (inr (no_content (req_url r)), files)
    end
  else (inl (str "Connection refused"), files).

Definition store_rt : Runtime :=
  {| world := list (pystr * pystr); send := store_send; quote := fun s => Return s |}.

Definition start (files : list (pystr * pystr)) : @state store_rt :=
  @Build_state store_rt files [].

(** A note with a tags line in its frontmatter. *)
Definition tagged_note : pystr :=
  str "---" ++ nl ++ str "tags: [x]" ++ nl ++ str "---" ++ nl ++ str "body".

(** Arguments for the delete tool and for the periodic-note tool. *)
Definition delete_root : gmap pystr pyval :=
  {[ str "filepath" := PyStr (str "/"); str "confirm" := PyBool true ]}.

Definition delete_number : gmap pystr pyval :=
  {[ str "filepath" := PyInt 5; str "confirm" := PyBool true ]}.

Definition period_hourly : gmap pystr pyval :=
  {[ str "period" := PyStr (str "hourly") ]}.


(** Nobody listens: every request fails at the connection. *)
Definition down_rt : Runtime :=
  {| world := unit;
     send := fun r w => (inl (str "Connection refused"), w);
     quote := fun s => Return s |}.

End Demo2.

(** * Properties *)

(** ** Strings *)

Lemma py_startswith_app (sub post : pystr) :
  py_startswith sub (sub ++ post) = true.
Proof.
  induction sub as [|a sub IH]; simpl; [done|].
  by rewrite N.eqb_refl, IH.
Qed.

Lemma py_startswith_inv (sub s : pystr) :
  py_startswith sub s = true -> exists post, s = sub ++ post.
Proof.
  revert s. induction sub as [|a sub IH]; intros s H; simpl in *.
  - by exists s.
  - destruct s as [|b t]; [done|].
    apply andb_true_iff in H as [Hab Ht]. apply N.eqb_eq in Hab as ->.
    destruct (IH _ Ht) as [post ->]. by exists post.
Qed.

Lemma py_startswith_single (a c : N) (t : pystr) :
  py_startswith [a] (c :: t) = (a =? c).
Proof. simpl. apply andb_true_r. Qed.

Lemma py_contains_cons (sub : pystr) (c : N) (t : pystr) :
  py_contains sub (c :: t) = py_startswith sub (c :: t) || py_contains sub t.
Proof. reflexivity. Qed.

Lemma py_contains_startswith (sub s : pystr) :
  py_startswith sub s = true -> py_contains sub s = true.
Proof. intros H. destruct s; simpl; by rewrite H. Qed.

(** [sub in s] holds exactly when [s] is [pre ++ sub ++ post]. *)
Lemma py_contains_app (sub pre post : pystr) :
  py_contains sub (pre ++ sub ++ post) = true.
Proof.
  induction pre as [|c pre IH].
  - rewrite app_nil_l. apply py_contains_startswith, py_startswith_app.
  - simpl. rewrite IH. apply orb_true_r.
Qed.

Lemma py_contains_inv (sub s : pystr) :
  py_contains sub s = true -> exists pre post, s = pre ++ sub ++ post.
Proof.
  induction s as [|c t IH]; simpl; intros H.
  - rewrite orb_false_r in H. apply py_startswith_inv in H as [post ->].
    by exists [], post.
  - apply orb_true_iff in H as [H|H].
    + apply py_startswith_inv in H as [post ->]. by exists [], post.
    + destruct (IH H) as (pre & post & ->). by exists (c :: pre), post.
Qed.

Lemma py_contains_app_r (sub pre s : pystr) :
  py_contains sub s = true -> py_contains sub (pre ++ s) = true.
Proof.
  intros H. induction pre as [|c pre IH]; [done|].
  change ((c :: pre) ++ s) with (c :: (pre ++ s)).
  rewrite py_contains_cons, IH. apply orb_true_r.
Qed.

Lemma contains_char_absent (a : N) (s : pystr) :
  Forall (fun c => c <> a) s -> py_contains [a] s = false.
Proof.
  induction 1 as [|c t Hc Ht IH]; [done|].
  rewrite py_contains_cons, py_startswith_single, IH, orb_false_r.
  apply N.eqb_neq. congruence.
Qed.

Lemma replace_from_cons (old new : pystr) (c : N) (t : pystr) :
  replace_from old new 0 (c :: t) =
  if py_startswith old (c :: t)
  then new ++ replace_from old new (Nat.pred (length old)) t
  else c :: replace_from old new 0 t.
Proof. reflexivity. Qed.

Lemma replace_from_skip (old new : pystr) (k : nat) (c : N) (t : pystr) :
  replace_from old new (S k) (c :: t) = replace_from old new k t.
Proof. reflexivity. Qed.

(** [replace] only drops characters of [s] and inserts characters of
    [new]. *)
Lemma replace_from_Forall (P : N -> Prop) (old new : pystr) :
  Forall P new -> forall s k, Forall P s -> Forall P (replace_from old new k s).
Proof.
  intros Hnew s. induction s as [|c t IH]; intros k Hs; simpl; [done|].
  inversion Hs; subst.
  destruct k; [|by apply IH].
  destruct (py_startswith old (c :: t)).
  - apply Forall_app; split; [done|by apply IH].
  - constructor; [done|by apply IH].
Qed.

Lemma replace_absent (old new s : pystr) :
  old <> [] -> py_contains old s = false -> py_replace old new s = s.
Proof.
  intros Hold. unfold py_replace. induction s as [|c t IH]; [done|].
  rewrite py_contains_cons. intros H.
  apply orb_false_iff in H as [H1 H2].
  rewrite replace_from_cons, H1. f_equal. by apply IH.
Qed.

Lemma py_join_empty_sep (parts : list pystr) : py_join [] parts = concat parts.
Proof.
  induction parts as [|p rest IH]; [done|].
  destruct rest as [|q rest]; [simpl; by rewrite app_nil_r|].
  change (py_join [] (p :: q :: rest)) with (p ++ [] ++ py_join [] (q :: rest)).
  rewrite IH. reflexivity.
Qed.

(** ** [_normalize_path] *)

Lemma str_slash : str "/" = [ch_slash].
Proof. reflexivity. Qed.

Lemma str_dslash : str "//" = [ch_slash; ch_slash].
Proof. reflexivity. Qed.

Lemma replace_backslash_clean (s : pystr) :
  Forall (fun c => c <> ch_backslash) (py_replace [ch_backslash] (str "/") s).
Proof.
  unfold py_replace. rewrite str_slash.
  induction s as [|c t IH]; [constructor|].
  rewrite replace_from_cons, py_startswith_single.
  destruct (ch_backslash =? c) eqn:E.
  - constructor; [done|exact IH].
  - constructor; [|exact IH]. apply N.eqb_neq in E. congruence.
Qed.

Lemma replace_dslash_length_le (s : pystr) (k : nat) :
  (length (replace_from (str "//") (str "/") k s) <= length s)%nat.
Proof.
  rewrite str_slash, str_dslash.
  revert k. induction s as [|c t IH]; intros k; [simpl; lia|].
  destruct k as [|k].
  - rewrite replace_from_cons.
    destruct (py_startswith _ (c :: t)).
    + specialize (IH 1%nat). simpl in *. lia.
    + specialize (IH 0%nat). simpl in *. lia.
  - rewrite replace_from_skip. specialize (IH k). simpl. lia.
Qed.

(** A round of the loop whose condition holds makes the path shorter. *)
Lemma replace_dslash_shorter (s : pystr) :
  py_contains (str "//") s = true ->
  (length (py_replace (str "//") (str "/") s) < length s)%nat.
Proof.
  unfold py_replace.
  induction s as [|c t IH]; [done|].
  rewrite py_contains_cons, replace_from_cons.
  destruct (py_startswith (str "//") (c :: t)) eqn:E; intros H.
  - rewrite str_dslash in E. apply py_startswith_inv in E as [t' E].
    injection E as -> ->.
    change (Nat.pred (length (str "//"))) with 1%nat.
    rewrite replace_from_skip.
    pose proof (replace_dslash_length_le t' 0) as Hle.
    rewrite str_slash in *. simpl. simpl in Hle. lia.
  - specialize (IH H). simpl. lia.
Qed.

(** The loop has stopped on its condition, not on the fuel, once the fuel
    is at least the length of the path. *)
Lemma collapse_slashes_done (fuel : nat) (path : pystr) :
  (length path <= fuel)%nat ->
  py_contains (str "//") (collapse_slashes fuel path) = false.
Proof.
  revert path. induction fuel as [|fuel IH]; intros path Hlen; simpl.
  - destruct path; [done|simpl in Hlen; lia].
  - destruct (py_contains (str "//") path) eqn:E; [|done].
    apply IH. pose proof (replace_dslash_shorter path E). lia.
Qed.

Lemma collapse_slashes_Forall (P : N -> Prop) (fuel : nat) (path : pystr) :
  P ch_slash -> Forall P path -> Forall P (collapse_slashes fuel path).
Proof.
  intros Hs. revert path. induction fuel as [|fuel IH]; intros path Hp; simpl; [done|].
  destruct (py_contains (str "//") path); [|done].
  apply IH. apply replace_from_Forall; [|done]. by constructor.
Qed.

Lemma collapse_slashes_absent (fuel : nat) (path : pystr) :
  py_contains (str "//") path = false -> collapse_slashes fuel path = path.
Proof. intros H. destruct fuel; simpl; [done|]. by rewrite H. Qed.

(** The normalized path has no repeated slash. *)
Lemma normalize_no_double_slash (path : pystr) :
  py_contains (str "//") (_normalize_path path) = false.
Proof.
  unfold _normalize_path. destruct path as [|c t]; [done|].
  cbv zeta. by apply collapse_slashes_done.
Qed.

(** The normalized path has no backslash. *)
Lemma normalize_no_backslash (path : pystr) :
  Forall (fun c => c <> ch_backslash) (_normalize_path path).
Proof.
  unfold _normalize_path. destruct path as [|c t]; [done|].
  cbv zeta. apply collapse_slashes_Forall; [done|].
  apply replace_backslash_clean.
Qed.

(** A path on which no step of the method has anything left to do is
    returned unchanged. *)
Lemma normalize_fixed_point (q : pystr) :
  py_strip q = q ->
  py_strip_chars (str "/") q = q ->
  Forall (fun c => c <> ch_backslash) q ->
  py_contains (str "//") q = false ->
  _normalize_path q = q.
Proof.
  intros Hsp Hsl Hbs Hds. unfold _normalize_path.
  destruct q as [|c t] eqn:E; [done|]. rewrite <- E in *. cbv zeta.
  rewrite Hsp, Hsl.
  rewrite (replace_absent [ch_backslash]); [|done|by apply contains_char_absent].
  by apply collapse_slashes_absent.
Qed.

(** C1.  Normalizing twice is not normalizing once.  The ends of the path
    are stripped before the backslashes are replaced, and the slashes are
    stripped after the whitespace, so a leading backslash comes out as a
    leading slash, and whitespace behind a leading slash comes out as
    leading whitespace; a second call removes either.  (The other half of
    the claim holds: [normalize_no_backslash],
    [normalize_no_double_slash].) *)
Theorem normalize_path_not_idempotent :
  _normalize_path (ch_backslash :: str "a") = str "/a"
  /\ _normalize_path (_normalize_path (ch_backslash :: str "a")) = str "a"
  /\ _normalize_path (str "/ a") = str " a"
  /\ _normalize_path (_normalize_path (str "/ a")) = str "a".
Proof. vm_compute. done. Qed.

(** ** [find_headings]: the scan *)

Lemma count_level_repeat (k : nat) (rest : pystr) :
  head rest <> Some ch_hash ->
  count_level (repeat ch_hash k ++ rest) = k.
Proof.
  intros H. induction k as [|k IH]; simpl.
  - destruct rest as [|c t]; [done|]. simpl.
    destruct (c =? ch_hash) eqn:E; [|done].
    apply N.eqb_eq in E. simpl in H. congruence.
  - change (35 =? ch_hash) with true. cbv iota. by rewrite IH.
Qed.

(** A line that, trimmed, is markers followed by a space is taken as a
    heading. *)
Lemma heading_marker_recognized (line : pystr) (k : nat) (rest : pystr) :
  py_strip line = repeat ch_hash (S k) ++ ch_space :: rest ->
  is_heading_line line = true.
Proof.
  intros H. unfold is_heading_line. rewrite H.
  apply andb_true_iff. split.
  - reflexivity.
  - apply (py_contains_app [ch_space] (repeat ch_hash (S k)) rest).
Qed.

(** The level of an entry is the number of leading markers of the trimmed
    line. *)
Lemma heading_step_level (headings : list heading_info) (line : pystr)
    (k : nat) (rest : pystr) :
  is_heading_line line = true ->
  py_strip line = repeat ch_hash k ++ rest ->
  head rest <> Some ch_hash ->
  exists h, heading_step headings line = headings ++ [h] /\ h_level h = k.
Proof.
  intros Hh Hs Hr. unfold heading_step. rewrite Hh. cbv zeta.
  eexists. split; [reflexivity|]. simpl. rewrite Hs. by apply count_level_repeat.
Qed.

(** C2.  The test of the scan is "starts with a marker and has a space
    somewhere", not "markers immediately followed by a space": the line
    [#tag note], where the marker is followed by [t], is reported as a
    heading of level 1 with text [note].  (The rest of the claim holds:
    [heading_marker_recognized], [heading_step_level].) *)
Theorem find_headings_accepts_tag_line :
  is_heading_line (str "#tag note") = true
  /\ scan_headings (str "#tag note")
     = [ {| h_level := 1; h_text := str "note"; h_path := str "note" |} ].
Proof. vm_compute. done. Qed.

(** ** The client *)

Section ClientFacts.
Context `{rt : Runtime}.

(** [get_file_contents], one step at a time: the request, then the status
    check, then one of the two handlers of [_safe_call]. *)
Lemma get_file_contents_eq (self : Obsidian) (filepath : pystr) (s : state) :
  get_file_contents self filepath s =
  let '(res, w) := send (get_file_request self filepath) (net s) in
  let s' := {| net := w; sent := sent s ++ [get_file_request self filepath] |} in
  match res with
  | inl msg => on_request_exception self msg (Some (str "get_file_contents")) s'
  | inr resp =>
      match raise_for_status resp s' with
      | (Return _, _) => (Return (text resp), s')
      | (Raise _, _) =>
          on_http_error self resp (Some (str "get_file_contents"))
            (Some [(str "filepath", _normalize_path filepath)]) s'
      end
  end.
Proof.
  unfold get_file_contents, _safe_call, try_except, bind, requests_send.
  fold (get_file_request self filepath).
  destruct (send (get_file_request self filepath) (net s)) as [[msg|resp] w]; [done|].
  unfold raise_for_status, raise, ret.
  destruct (_ && _)%Z; [done|]. destruct (_ && _)%Z; done.
Qed.

(** Neither handler touches the network. *)
Lemma on_http_error_state {A} (self : Obsidian) (resp : Response)
    (operation : option pystr) (context : option (list (pystr * pystr)))
    (s : state) :
  exists e, on_http_error (A := A) self resp operation context s = (Raise e, s).
Proof.
  unfold on_http_error, bind, response_json, json_get, ret, raise.
  destruct (nonempty (content resp)); [destruct (json resp)|]; by eexists.
Qed.

Lemma on_request_exception_state {A} (self : Obsidian) (msg : pystr)
    (operation : option pystr) (s : state) :
  exists e, on_request_exception (A := A) self msg operation s = (Raise e, s).
Proof. unfold on_request_exception, raise. by eexists. Qed.

(** Every call of [get_file_contents] puts exactly one request on the
    wire. *)
Lemma get_file_contents_sent (self : Obsidian) (filepath : pystr)
    (s s' : state) (r : outcome pystr) :
  get_file_contents self filepath s = (r, s') ->
  sent s' = sent s ++ [get_file_request self filepath].
Proof.
  rewrite get_file_contents_eq.
  destruct (send (get_file_request self filepath) (net s)) as [[msg|resp] w];
    cbv zeta.
  - destruct (on_request_exception_state (A := pystr) self msg
                (Some (str "get_file_contents"))
                {| net := w; sent := sent s ++ [get_file_request self filepath] |})
      as [e ->].
    by intros [= _ <-].
  - destruct (raise_for_status resp _) as [[u|e] s1].
    + by intros [= _ <-].
    + destruct (on_http_error_state (A := pystr) self resp
                  (Some (str "get_file_contents"))
                  (Some [(str "filepath", _normalize_path filepath)])
                  {| net := w; sent := sent s ++ [get_file_request self filepath] |})
        as [e' ->].
      by intros [= _ <-].
Qed.

(** C3.  An operation outside [valid_operations], or a target type outside
    [valid_target_types], makes [patch_content] raise [ValueError] from the
    state it was called in: nothing was sent and the network is as it was. *)
Theorem patch_content_rejects_invalid (self : Obsidian)
    (filepath operation target_type target content : pystr)
    (create_if_missing trim_whitespace : bool) (s : state) :
  operation ∉ valid_operations \/ target_type ∉ valid_target_types ->
  exists msg,
    patch_content self filepath operation target_type target content
      create_if_missing trim_whitespace s = (Raise (ValueError msg), s).
Proof.
  intros H. unfold patch_content.
  case_bool_decide as Hop; simpl; [|by eexists].
  case_bool_decide as Hty; simpl; [|by eexists].
  by destruct H.
Qed.

(** C9.  With a valid operation and a valid target type, an empty target
    makes [patch_content] raise [ValueError("Target cannot be empty")] from
    the state it was called in. *)
Theorem patch_content_empty_target (self : Obsidian)
    (filepath operation target_type content : pystr)
    (create_if_missing trim_whitespace : bool) (s : state) :
  operation ∈ valid_operations ->
  target_type ∈ valid_target_types ->
  patch_content self filepath operation target_type [] content
    create_if_missing trim_whitespace s
  = (Raise (ValueError (str "Target cannot be empty")), s).
Proof.
  intros Hop Hty. unfold patch_content.
  rewrite !bool_decide_eq_true_2 by done. reflexivity.
Qed.

(** C7.  Whatever [get_file_contents] raises, [find_headings] returns the
    empty list. *)
Theorem find_headings_read_failure (self : Obsidian) (filepath : pystr)
    (s s' : state) (e : exn) :
  get_file_contents self filepath s = (Raise e, s') ->
  find_headings self filepath s = (Return [], s').
Proof.
  intros H. unfold find_headings, try_except, bind. by rewrite H.
Qed.

(** C4.  On the content ["# A\n## B\n# C"] [find_headings] returns three
    entries, with paths [A], [A::B] and [C]. *)
Theorem find_headings_example (self : Obsidian) (filepath : pystr)
    (s s' : state) :
  get_file_contents self filepath s
    = (Return (str "# A" ++ nl ++ str "## B" ++ nl ++ str "# C"), s') ->
  find_headings self filepath s
    = (Return [ {| h_level := 1; h_text := str "A"; h_path := str "A" |};
                {| h_level := 2; h_text := str "B"; h_path := str "A::B" |};
                {| h_level := 1; h_text := str "C"; h_path := str "C" |} ], s').
Proof.
  intros H. unfold find_headings, try_except, bind. rewrite H.
  unfold ret. do 2 f_equal.
Qed.

(** The loop of the batch read never raises and appends to [result] one
    block per path. *)
Lemma batch_loop_blocks (self : Obsidian) (filepaths : list pystr) :
  forall (result : list pystr) (s : state),
  exists blocks s',
    batch_loop self filepaths result s = (Return (result ++ blocks), s')
    /\ batch_blocks self filepaths s blocks s'.
Proof.
  induction filepaths as [|fp rest IH]; intros result s.
  - exists [], s. split; [|constructor]. simpl. unfold ret. by rewrite app_nil_r.
  - simpl. unfold bind at 1. unfold try_except, bind at 1.
    destruct (get_file_contents self fp s) as [[c|e] s1] eqn:E; unfold ret.
    + destruct (IH (result ++ [success_block fp c]) s1) as (blocks & s2 & Hl & Hb).
      exists (success_block fp c :: blocks), s2. split.
      * rewrite Hl. by rewrite <- app_assoc.
      * by eapply batch_read.
    + destruct (IH (result ++ [error_block fp (exn_str e)]) s1)
        as (blocks & s2 & Hl & Hb).
      exists (error_block fp (exn_str e) :: blocks), s2. split.
      * rewrite Hl. by rewrite <- app_assoc.
      * by eapply batch_failed.
Qed.

Lemma batch_blocks_shape (self : Obsidian) (filepaths : list pystr)
    (s : state) (blocks : list pystr) (s' : state) :
  batch_blocks self filepaths s blocks s' ->
  Forall2 (fun fp b => (exists c, b = success_block fp c)
                       \/ (exists t, b = error_block fp t))
    filepaths blocks.
Proof. induction 1; constructor; eauto. Qed.

(** Every path of the batch is requested, in order, failed or not. *)
Lemma batch_blocks_sent (self : Obsidian) (filepaths : list pystr)
    (s : state) (blocks : list pystr) (s' : state) :
  batch_blocks self filepaths s blocks s' ->
  sent s' = sent s ++ List.map (get_file_request self) filepaths.
Proof.
  induction 1 as [s | fp rest s c s1 blocks s2 Hget _ IH
                    | fp rest s e s1 blocks s2 Hget _ IH].
  - simpl. by rewrite app_nil_r.
  - rewrite IH, (get_file_contents_sent _ _ _ _ _ Hget). simpl.
    by rewrite <- app_assoc.
  - rewrite IH, (get_file_contents_sent _ _ _ _ _ Hget). simpl.
    by rewrite <- app_assoc.
Qed.

(** The two blocks of the loop are the texts of the specification. *)
Lemma batch_blocks_text (self : Obsidian) (filepaths : list pystr)
    (s : state) (blocks : list pystr) (s' : state) :
  batch_blocks self filepaths s blocks s' ->
  batch_text self filepaths s blocks s'.
Proof.
  induction 1 as [s | fp rest s c s1 blocks s2 Hget _ IH
                    | fp rest s e s1 blocks s2 Hget _ IH].
  - constructor.
  - unfold success_block, nl.
    exact (batch_text_read self fp rest s c s1 blocks s2 Hget IH).
  - unfold error_block, nl.
    exact (batch_text_failed self fp rest s e s1 blocks s2 Hget IH).
Qed.

Lemma batch_text_shape (self : Obsidian) (filepaths : list pystr)
    (s : state) (blocks : list pystr) (s' : state) :
  batch_text self filepaths s blocks s' ->
  Forall2
    (fun fp b =>
       (exists content,
          b = str "# " ++ fp ++ [ch_newline; ch_newline] ++ content
              ++ [ch_newline; ch_newline] ++ str "---" ++ [ch_newline; ch_newline])
       \/ (exists e,
             b = str "# " ++ fp ++ [ch_newline; ch_newline]
                 ++ str "Error reading file: " ++ exn_str e
                 ++ [ch_newline; ch_newline] ++ str "---"
                 ++ [ch_newline; ch_newline]))
    filepaths blocks.
Proof. induction 1; constructor; eauto. Qed.

(** C5.  [get_batch_file_contents] returns, for every list of paths: the
    result is the concatenation of one block per path in the order of the
    paths.  The paths are read one after the other, each from the state the
    one before left.  The block of a path that was read is [# ], the path,
    two newlines, the content read, two newlines, [---] and two newlines;
    the block of a path whose read raised has [Error reading file: ] and
    the text of the exception in the place of the content.  Every path has
    been requested, failed or not. *)
Theorem get_batch_file_contents_total (self : Obsidian)
    (filepaths : list pystr) (s : state) :
  exists blocks s',
    get_batch_file_contents self filepaths s = (Return (concat blocks), s')
    /\ batch_text self filepaths s blocks s'
    /\ Forall2
         (fun fp b =>
            (exists content,
               b = str "# " ++ fp ++ [ch_newline; ch_newline] ++ content
                   ++ [ch_newline; ch_newline] ++ str "---"
                   ++ [ch_newline; ch_newline])
            \/ (exists e,
                  b = str "# " ++ fp ++ [ch_newline; ch_newline]
                      ++ str "Error reading file: " ++ exn_str e
                      ++ [ch_newline; ch_newline] ++ str "---"
                      ++ [ch_newline; ch_newline]))
         filepaths blocks
    /\ sent s' = sent s ++ List.map (get_file_request self) filepaths.
Proof.
  destruct (batch_loop_blocks self filepaths [] s) as (blocks & s' & Hl & Hb).
  exists blocks, s'. split; [|split; [|split]].
  - unfold get_batch_file_contents, bind. rewrite Hl. unfold ret.
    by rewrite py_join_empty_sep.
  - by apply batch_blocks_text.
  - by eapply batch_text_shape, batch_blocks_text.
  - by eapply batch_blocks_sent.
Qed.

Lemma raise_for_status_404 (resp : Response) (s : state) :
  status_code resp = 404%Z ->
  exists msg, raise_for_status resp s = (Raise (HTTPError msg resp), s).
Proof.
  intros H. unfold raise_for_status. rewrite H. simpl. by eexists.
Qed.

(** The message that the [HTTPError] handler builds for a 404 on
    [get_file_contents], when [error_data] can be read. *)
Lemma on_http_error_404_read (self : Obsidian) (resp : Response)
    (filepath : pystr) (s : state) :
  status_code resp = 404%Z ->
  content resp = [] \/ (exists d, json resp = JsonDict d) ->
  exists head,
    on_http_error (A := pystr) self resp (Some (str "get_file_contents"))
      (Some [(str "filepath", filepath)]) s
    = (Raise (Exception
         (head ++ nl ++ str "Suggestion: Check if the file '" ++ filepath
          ++ str "' exists in your vault. Use list_files_in_vault() to see available files.")),
       s).
Proof.
  intros Hst Hbody. unfold on_http_error.
  assert (Hdata : exists d,
    (if nonempty (content resp) then response_json resp else ret (JsonDict ∅)) s
    = (Return (JsonDict d), s)).
  { destruct Hbody as [-> | [d Hd]].
    - by exists ∅.
    - destruct (nonempty (content resp)); [|by exists ∅].
      exists d. unfold response_json. by rewrite Hd. }
  destruct Hdata as [d Hdata].
  unfold bind at 1. rewrite Hdata.
  unfold bind, json_get, ret, raise. rewrite Hst.
  change (404 =? 404)%Z with true. cbv iota.
  rewrite bool_decide_eq_true_2 by reflexivity.
  change (dict_get [(str "filepath", filepath)] (str "filepath") []) with filepath.
  eexists. reflexivity.
Qed.

(** Where the message of a 404 does come out as promised: when the request
    of [get_file_contents] is answered 404 and the body of the answer is
    empty or a JSON object, the call raises [Exception] with a message that
    contains the normalized path and the name [list_files_in_vault]. *)
Theorem get_file_contents_404_message (self : Obsidian) (filepath : pystr)
    (s : state) (resp : Response) (w : world) :
  send (get_file_request self filepath) (net s) = (inr resp, w) ->
  status_code resp = 404%Z ->
  content resp = [] \/ (exists d, json resp = JsonDict d) ->
  exists msg s',
    get_file_contents self filepath s = (Raise (Exception msg), s')
    /\ py_contains (_normalize_path filepath) msg = true
    /\ py_contains (str "list_files_in_vault") msg = true.
Proof.
  intros Hsend Hst Hbody.
  rewrite get_file_contents_eq, Hsend. cbv zeta.
  destruct (raise_for_status_404 resp
              {| net := w; sent := sent s ++ [get_file_request self filepath] |} Hst)
    as [m ->].
  destruct (on_http_error_404_read self resp (_normalize_path filepath)
              {| net := w; sent := sent s ++ [get_file_request self filepath] |}
              Hst Hbody) as [head ->].
  eexists _, _. split; [reflexivity|]. split.
  - do 3 apply py_contains_app_r. apply (py_contains_app _ []).
  - do 4 apply py_contains_app_r. vm_compute. reflexivity.
Qed.

End ClientFacts.

(** ** The tool registry *)

Section RegistryFacts.
Context `{rt : Runtime}.

(** C8.  Without [OBSIDIAN_API_KEY] in the environment, or with an empty
    one, importing the module raises [ValueError]; the module's globals,
    which every tool handler reads, never come to exist. *)
Theorem module_init_requires_key (environ : gmap pystr pystr) (cwd : pystr) :
  environ !! str "OBSIDIAN_API_KEY" = None
  \/ environ !! str "OBSIDIAN_API_KEY" = Some [] ->
  Tools.module_init environ cwd
  = Raise (ValueError
      (str "OBSIDIAN_API_KEY environment variable required. Working directory: "
       ++ cwd))
  /\ forall g, Tools.module_init environ cwd <> Return g.
Proof.
  intros H.
  assert (E : Tools.module_init environ cwd
    = Raise (ValueError
      (str "OBSIDIAN_API_KEY environment variable required. Working directory: "
       ++ cwd))).
  { unfold Tools.module_init, Tools.getenv. cbv zeta. unfold pystr in *.
    destruct H as [H|H]; rewrite H; reflexivity. }
  split; [done|]. intros g. by rewrite E.
Qed.

(** What the gate of the delete tool does hold.  The handler tests the
    truth value of [confirm].  When [confirm] is absent or falsy the
    handler raises [RuntimeError] from the state it was called in, so
    nothing was sent; and whenever the handler ends otherwise than by
    [RuntimeError], or a request has gone out, [filepath] is present and
    [confirm] is truthy. *)
Theorem run_tool_confirm_gate (g : Tools.globals) (args : gmap pystr pyval)
    (s : state) :
  ((args !! str "confirm" = None
    \/ exists v, args !! str "confirm" = Some v /\ truthy v = false) ->
   exists msg, Tools.run_tool g args s = (Raise (RuntimeError msg), s))
  /\ (forall r s',
        Tools.run_tool g args s = (r, s') ->
        (forall msg, r <> Raise (RuntimeError msg)) \/ sent s' <> sent s ->
        exists fp v, args !! str "filepath" = Some fp
                     /\ args !! str "confirm" = Some v /\ truthy v = true).
Proof.
  unfold Tools.run_tool. split.
  - intros H.
    destruct (args !! str "filepath") as [fp|]; [|by eexists].
    destruct H as [-> | (v & -> & Hv)]; simpl; [by eexists|].
    rewrite Hv. by eexists.
  - intros r s' H Hcalled.
    assert (Hguard : forall m, (r, s') = (Raise (RuntimeError m), s) -> False).
    { intros m [= -> ->]. destruct Hcalled as [Hr|Hs]; [by eapply Hr|done]. }
    destruct (args !! str "filepath") as [fp|];
      [|exfalso; eapply Hguard; by rewrite <- H].
    destruct (args !! str "confirm") as [v|]; simpl in H;
      [|exfalso; eapply Hguard; by rewrite <- H].
    destruct (truthy v) eqn:Hv; simpl in H;
      [|exfalso; eapply Hguard; by rewrite <- H].
    by exists fp, v.
Qed.

End RegistryFacts.

(** ** The properties at work on the two example servers *)

Lemma patch_content_rejects_invalid_witness :
  (str "delete" ∉ valid_operations)
  /\ exists msg,
       @patch_content Demo.vault_rt Demo.client (str "a.md") (str "delete")
         (str "heading") (str "Tasks") (str "x") false false (Demo.start [])
       = (Raise (ValueError msg), Demo.start []).
Proof.
  assert (H : str "delete" ∉ valid_operations).
  { apply (bool_decide_unpack _). vm_compute. exact I. }
  split; [exact H|].
  apply (@patch_content_rejects_invalid Demo.vault_rt). left. exact H.
Defined.

Lemma patch_content_empty_target_witness :
  @patch_content Demo.vault_rt Demo.client (str "a.md") (str "append")
    (str "heading") [] (str "x") false false (Demo.start [])
  = (Raise (ValueError (str "Target cannot be empty")), Demo.start []).
Proof.
  apply (@patch_content_empty_target Demo.vault_rt);
    apply (bool_decide_unpack _); vm_compute; exact I.
Defined.

Lemma find_headings_example_witness :
  @find_headings Demo.vault_rt Demo.client (str "note.md")
    (Demo.start [(str "note.md", Demo.abc_content)])
  = (Return [ {| h_level := 1; h_text := str "A"; h_path := str "A" |};
              {| h_level := 2; h_text := str "B"; h_path := str "A::B" |};
              {| h_level := 1; h_text := str "C"; h_path := str "C" |} ],
     @Build_state Demo.vault_rt [(str "note.md", Demo.abc_content)]
       [get_file_request Demo.client (str "note.md")]).
Proof.
  apply (@find_headings_example Demo.vault_rt). vm_compute. reflexivity.
Defined.

Lemma find_headings_read_failure_witness :
  @find_headings Demo.vault_rt Demo.client (str "missing.md") (Demo.start [])
  = (Return [],
     @Build_state Demo.vault_rt []
       [get_file_request Demo.client (str "missing.md")]).
Proof.
  eapply (@find_headings_read_failure Demo.vault_rt). vm_compute. reflexivity.
Defined.

Lemma get_file_contents_404_message_witness :
  exists msg s',
    @get_file_contents Demo.vault_rt Demo.client (str "missing.md") (Demo.start [])
    = (Raise (Exception msg), s')
    /\ py_contains (_normalize_path (str "missing.md")) msg = true
    /\ py_contains (str "list_files_in_vault") msg = true.
Proof.
  apply (@get_file_contents_404_message Demo.vault_rt Demo.client
           (str "missing.md") (Demo.start [])
           (Demo.not_found_response
              (req_url (get_file_request Demo.client (str "missing.md"))))
           []).
  - vm_compute. reflexivity.
  - reflexivity.
  - right. eexists. reflexivity.
Defined.

(** C6.  The handler of [_safe_call] guards the empty body of an error
    answer and no other: a 404 whose body is not JSON makes
    [response.json()] raise inside the handler, and what reaches the caller
    is that decoding error, with neither the path nor the suggestion in its
    message, where the docstring promises an exception with the details
    and the suggestions. *)
Lemma get_file_contents_404_not_json :
  exists resp w e s',
    @send Demo.gateway_rt (get_file_request Demo.client (str "missing.md")) tt
    = (inr resp, w)
    /\ status_code resp = 404%Z
    /\ @get_file_contents Demo.gateway_rt Demo.client (str "missing.md")
         (@Build_state Demo.gateway_rt tt []) = (Raise e, s')
    /\ py_contains (str "missing.md") (exn_str e) = false
    /\ py_contains (str "list_files_in_vault") (exn_str e) = false.
Proof.
  eexists _, _, (JSONDecodeError _), _.
  split; [reflexivity|]. split; [reflexivity|].
  split; [vm_compute; reflexivity|]. split; vm_compute; reflexivity.
Qed.

Lemma module_init_requires_key_witness :
  Tools.module_init ∅ (str "/srv")
  = Raise (ValueError
      (str "OBSIDIAN_API_KEY environment variable required. Working directory: "
       ++ str "/srv"))
  /\ forall g, Tools.module_init ∅ (str "/srv") <> Return g.
Proof.
  apply module_init_requires_key. left. reflexivity.
Defined.

Lemma run_tool_confirm_gate_witness :
  exists msg,
    @Tools.run_tool Demo.vault_rt Demo.demo_globals Demo.confirm_false
      (Demo.start [(str "a.md", str "text")])
    = (Raise (RuntimeError msg), Demo.start [(str "a.md", str "text")]).
Proof.
  apply (proj1 (@run_tool_confirm_gate Demo.vault_rt Demo.demo_globals
                  Demo.confirm_false (Demo.start [(str "a.md", str "text")]))).
  right. exists (PyBool false). split; [vm_compute; reflexivity|reflexivity].
Defined.

(** C10.  The gate lets through what is not true: [confirm] given as the
    string ["no"] is truthy, and the file is deleted, where the schema of
    the tool says the value must be true and the error of the gate says
    [confirm must be set to true]. *)
Lemma run_tool_deletes_on_truthy_confirm :
  Demo.confirm_no !! str "confirm" = Some (PyStr (str "no"))
  /\ PyStr (str "no") <> PyBool true
  /\ @Tools.run_tool Demo.vault_rt Demo.demo_globals Demo.confirm_no
       (Demo.start [(str "a.md", str "text")])
     = (Return [ {| Tools.tc_type := str "text";
                    Tools.tc_text := str "Successfully deleted a.md" |} ],
        @Build_state Demo.vault_rt []
          [ {| req_method := DELETE;
               req_url := str "https://127.0.0.1:27124/vault/a.md";
               req_headers := [(str "Authorization", str "Bearer secret")];
               req_data := None; req_verify := false; req_timeout := (3, 6)%Z |} ]).
Proof.
  split; [vm_compute; reflexivity|]. split; [discriminate|].
  vm_compute. reflexivity.
Qed.

(** The batch read of the specification's example: one file that is there
    and one that is not. *)
Example get_batch_file_contents_good_missing :
  fst (@get_batch_file_contents Demo.vault_rt Demo.client
         [str "good.md"; str "missing.md"]
         (Demo.start [(str "good.md", str "hello")]))
  = Return
      (success_block (str "good.md") (str "hello")
       ++ error_block (str "missing.md")
            (str "Error 40400: Not Found" ++ nl
             ++ str "Operation: get_file_contents" ++ nl
             ++ str "Context: filepath='missing.md'" ++ nl
             ++ str "Suggestion: Check if the file 'missing.md' exists in your vault. Use list_files_in_vault() to see available files.")).
Proof. vm_compute. reflexivity. Qed.

(** Only the nearest shallower heading enters a path: under [A] and [B],
    the path of [C] is [B::C]. *)
Example scan_headings_single_ancestor :
  List.map h_path
    (scan_headings (str "# A" ++ nl ++ str "## B" ++ nl ++ str "### C"))
  = [str "A"; str "A::B"; str "B::C"].
Proof. vm_compute. reflexivity. Qed.

(** * More of the code *)

(** ** More on strings: the strip family *)
Lemma last_rev_head {A} (s : list A) : last (rev s) = head s.
Proof.
  destruct s as [|c t]; [done|]. simpl. by rewrite last_snoc.
Qed.

Lemma lstrip_by_idem (p : N -> bool) (s : pystr) :
  lstrip_by p (lstrip_by p s) = lstrip_by p s.
Proof.
  induction s as [|c t IH]; [done|]. simpl.
  destruct (p c) eqn:E; [done|]. simpl. by rewrite E.
Qed.

Lemma lstrip_by_head (p : N -> bool) (s : pystr) (c : N) :
  head (lstrip_by p s) = Some c -> p c = false.
Proof.
  induction s as [|a t IH]; [done|]. simpl.
  destruct (p a) eqn:E; [done|]. simpl. by intros [= <-].
Qed.

Lemma lstrip_by_fixed (p : N -> bool) (s : pystr) :
  match s with [] => True | c :: _ => p c = false end -> lstrip_by p s = s.
Proof. destruct s as [|c t]; [done|]. simpl. by intros ->. Qed.

Lemma lstrip_by_suffix (p : N -> bool) (s : pystr) :
  exists pre, s = pre ++ lstrip_by p s /\ Forall (fun c => p c = true) pre.
Proof.
  induction s as [|c t (pre & E & F)]; [by exists []|]. simpl.
  destruct (p c) eqn:Ec.
  - exists (c :: pre). split; [simpl; by f_equal|by constructor].
  - by exists [].
Qed.

Lemma rstrip_by_prefix (p : N -> bool) (s : pystr) :
  exists post, s = rstrip_by p s ++ post /\ Forall (fun c => p c = true) post.
Proof.
  unfold rstrip_by.
  destruct (lstrip_by_suffix p (rev s)) as (pre & E & F).
  exists (rev pre). split.
  - rewrite <- rev_app_distr, <- E. by rewrite rev_involutive.
  - by apply Forall_rev.
Qed.

Lemma rstrip_by_last (p : N -> bool) (s : pystr) (c : N) :
  last (rstrip_by p s) = Some c -> p c = false.
Proof.
  unfold rstrip_by. intros H. rewrite last_rev_head in H. by eapply lstrip_by_head.
Qed.

(** Stripping the right end keeps the left end. *)
Lemma rstrip_by_head (p : N -> bool) (s : pystr) (c : N) :
  head (rstrip_by p s) = Some c -> head s = Some c.
Proof.
  destruct (rstrip_by_prefix p s) as (post & E & _). intros H.
  rewrite E. by destruct (rstrip_by p s).
Qed.

Lemma strip_by_head (p : N -> bool) (s : pystr) (c : N) :
  head (strip_by p s) = Some c -> p c = false.
Proof.
  unfold strip_by. intros H. apply rstrip_by_head in H. by eapply lstrip_by_head.
Qed.

Lemma strip_by_last (p : N -> bool) (s : pystr) (c : N) :
  last (strip_by p s) = Some c -> p c = false.
Proof. unfold strip_by. apply rstrip_by_last. Qed.

Lemma strip_by_fixed (p : N -> bool) (s : pystr) :
  (forall c, head s = Some c -> p c = false) ->
  (forall c, last s = Some c -> p c = false) ->
  strip_by p s = s.
Proof.
  intros Hh Hl. unfold strip_by.
  rewrite (lstrip_by_fixed p s); [|destruct s; [done|by apply Hh]].
  unfold rstrip_by. rewrite (lstrip_by_fixed p (rev s)); [by rewrite rev_involutive|].
  destruct (rev s) as [|c t] eqn:E; [done|].
  apply Hl. rewrite <- (rev_involutive s), E. by rewrite last_rev_head.
Qed.

Lemma strip_by_idem (p : N -> bool) (s : pystr) :
  strip_by p (strip_by p s) = strip_by p s.
Proof.
  apply strip_by_fixed; intros c H.
  - by eapply strip_by_head.
  - by eapply strip_by_last.
Qed.

Lemma strip_by_Forall (P : N -> Prop) (p : N -> bool) (s : pystr) :
  Forall P s -> Forall P (strip_by p s).
Proof.
  intros H. unfold strip_by.
  destruct (lstrip_by_suffix p s) as (pre & E & _).
  destruct (rstrip_by_prefix p (lstrip_by p s)) as (post & E' & _).
  rewrite E, E' in H.
  apply Forall_app in H as [_ H]. by apply Forall_app in H as [H _].
Qed.

Lemma strip_by_length (p : N -> bool) (s : pystr) :
  (length (strip_by p s) <= length s)%nat.
Proof.
  unfold strip_by.
  destruct (lstrip_by_suffix p s) as (pre & E & _).
  destruct (rstrip_by_prefix p (lstrip_by p s)) as (post & E' & _).
  rewrite E at 2. rewrite E' at 2. rewrite !length_app. lia.
Qed.

Lemma replace_char_length (a b : N) (s : pystr) :
  length (py_replace [a] [b] s) = length s.
Proof.
  unfold py_replace. induction s as [|c t IH]; [done|].
  rewrite replace_from_cons, py_startswith_single.
  destruct (a =? c); simpl; by rewrite IH.
Qed.

Lemma collapse_slashes_length (fuel : nat) (path : pystr) :
  (length (collapse_slashes fuel path) <= length path)%nat.
Proof.
  revert path. induction fuel as [|fuel IH]; intros path; simpl; [lia|].
  destruct (py_contains (str "//") path); [|lia].
  etrans; [apply IH|]. apply replace_dslash_length_le.
Qed.

(** X1.  Whatever the input, the normalized path has no backslash and no
    repeated slash, and is not longer than the input. *)
Theorem normalize_path_clean (path : pystr) :
  Forall (fun c => c <> ch_backslash) (_normalize_path path)
  /\ py_contains (str "//") (_normalize_path path) = false
  /\ (length (_normalize_path path) <= length path)%nat.
Proof.
  split; [apply normalize_no_backslash|].
  split; [apply normalize_no_double_slash|].
  unfold _normalize_path. destruct path as [|c t]; [done|]. cbv zeta.
  etrans; [apply collapse_slashes_length|].
  rewrite str_slash, replace_char_length.
  etrans; [apply strip_by_length|]. apply strip_by_length.
Qed.

(** X2.  A normalized path that neither starts nor ends with whitespace or
    a slash is left as it is by a second normalization. *)
Theorem normalize_idempotent_when_trimmed (path : pystr) :
  py_strip (_normalize_path path) = _normalize_path path ->
  py_strip_chars (str "/") (_normalize_path path) = _normalize_path path ->
  _normalize_path (_normalize_path path) = _normalize_path path.
Proof.
  intros Hsp Hsl. apply normalize_fixed_point; [done|done| |].
  - apply normalize_no_backslash.
  - apply normalize_no_double_slash.
Qed.

(** Replacing [//] by [/] keeps the two ends of the path. *)
Lemma replace_dslash_head (s : pystr) (c : N) :
  head s = Some c -> c <> ch_slash ->
  head (py_replace (str "//") (str "/") s) = Some c.
Proof.
  destruct s as [|a t]; [done|]. intros [= ->] Hc.
  unfold py_replace. rewrite replace_from_cons.
  destruct (py_startswith (str "//") (c :: t)) eqn:E; [|done].
  rewrite str_dslash in E. apply py_startswith_inv in E as [post E].
  injection E as -> _. done.
Qed.

Lemma replace_dslash_last_aux (n : nat) :
  forall s, (length s <= n)%nat ->
  last (replace_from (str "//") (str "/") 0 s) = last s.
Proof.
  rewrite str_slash, str_dslash.
  induction n as [|n IH]; intros s Hn.
  - destruct s; [done|simpl in Hn; lia].
  - destruct s as [|c t]; [done|].
    rewrite replace_from_cons.
    destruct (py_startswith _ (c :: t)) eqn:E.
    + apply py_startswith_inv in E as [t' E].
      injection E as -> ->.
      change (Nat.pred (length [ch_slash; ch_slash])) with 1%nat.
      rewrite replace_from_skip.
      change ([ch_slash] ++ ?x) with (ch_slash :: x).
      specialize (IH t'). simpl in Hn.
      destruct t' as [|d t'']; [done|].
      rewrite last_cons, IH by (simpl in *; lia).
      rewrite !last_cons. by destruct (last t'').
    + specialize (IH t). simpl in Hn.
      rewrite !last_cons. rewrite IH by lia. done.
Qed.

Lemma replace_dslash_last (s : pystr) :
  last (py_replace (str "//") (str "/") s) = last s.
Proof. by apply (replace_dslash_last_aux (length s)). Qed.

Lemma collapse_slashes_head (fuel : nat) (s : pystr) (c : N) :
  head s = Some c -> c <> ch_slash -> head (collapse_slashes fuel s) = Some c.
Proof.
  revert s. induction fuel as [|fuel IH]; intros s Hh Hc; simpl; [done|].
  destruct (py_contains (str "//") s); [|done].
  apply IH; [|done]. by apply replace_dslash_head.
Qed.

Lemma collapse_slashes_last (fuel : nat) (s : pystr) :
  last (collapse_slashes fuel s) = last s.
Proof.
  revert s. induction fuel as [|fuel IH]; intros s; simpl; [done|].
  destruct (py_contains (str "//") s); [|done].
  by rewrite IH, replace_dslash_last.
Qed.

Lemma collapse_slashes_nil (fuel : nat) : collapse_slashes fuel [] = [].
Proof. by destruct fuel. Qed.

Lemma strip_slash_pred (c : N) :
  existsb (N.eqb c) (str "/") = false <-> c <> ch_slash.
Proof.
  rewrite str_slash. simpl. rewrite orb_false_r. apply N.eqb_neq.
Qed.

Lemma strip_slash_head (s : pystr) (c : N) :
  head (py_strip_chars (str "/") s) = Some c -> c <> ch_slash.
Proof.
  intros H. apply strip_slash_pred.
  exact (strip_by_head (fun c => existsb (N.eqb c) (str "/")) s c H).
Qed.

Lemma strip_slash_last (s : pystr) (c : N) :
  last (py_strip_chars (str "/") s) = Some c -> c <> ch_slash.
Proof.
  intros H. apply strip_slash_pred.
  exact (strip_by_last (fun c => existsb (N.eqb c) (str "/")) s c H).
Qed.

Lemma strip_slash_fixed (s : pystr) :
  (forall c, head s = Some c -> c <> ch_slash) ->
  (forall c, last s = Some c -> c <> ch_slash) ->
  py_strip_chars (str "/") s = s.
Proof.
  intros Hh Hl. apply strip_by_fixed; intros c Hc; apply strip_slash_pred; auto.
Qed.

(** X3.  On a path without backslash and without whitespace, normalizing
    twice is normalizing once. *)
Theorem normalize_idempotent_plain (path : pystr) :
  Forall (fun c => c <> ch_backslash /\ is_space c = false) path ->
  _normalize_path (_normalize_path path) = _normalize_path path.
Proof.
  intros Hp. apply Forall_and in Hp as [Hbs Hsp].
  unfold _normalize_path at 2 3. destruct path as [|a t] eqn:Epath; [done|].
  rewrite <- Epath in *. clear Epath a t. cbv zeta.
  set (p2 := py_strip_chars (str "/") (py_strip path)).
  assert (Hbs2 : Forall (fun c => c <> ch_backslash) p2)
    by (by do 2 apply strip_by_Forall).
  assert (Hsp2 : Forall (fun c => is_space c = false) p2)
    by (by do 2 apply strip_by_Forall).
  rewrite (replace_absent [ch_backslash]); [|done|by apply contains_char_absent].
  set (q := collapse_slashes (length p2) p2).
  assert (Hq : Forall (fun c => is_space c = false) q)
    by (by apply collapse_slashes_Forall).
  assert (Hhead : forall c, head q = Some c -> c <> ch_slash /\ is_space c = false).
  { intros c Hc. split.
    - destruct (head p2) as [d|] eqn:Ed.
      + assert (Hd : d <> ch_slash).
        { by eapply strip_slash_head. }
        unfold q in Hc. rewrite (collapse_slashes_head _ _ d Ed Hd) in Hc.
        by injection Hc as <-.
      + apply head_None in Ed. unfold q in Hc. rewrite Ed in Hc.
        by rewrite collapse_slashes_nil in Hc.
    - apply head_Some in Hc as [l' El]. rewrite El in Hq.
      by apply Forall_cons in Hq as [? _]. }
  assert (Hlast : forall c, last q = Some c -> c <> ch_slash /\ is_space c = false).
  { intros c Hc. split.
    - unfold q in Hc. rewrite collapse_slashes_last in Hc.
      by eapply strip_slash_last.
    - apply last_Some in Hc as [l' El]. rewrite El in Hq.
      apply Forall_app in Hq as [_ Hq]. by apply Forall_cons in Hq as [? _]. }
  apply normalize_fixed_point.
  - apply strip_by_fixed; intros c Hc; [by apply Hhead|by apply Hlast].
  - apply strip_slash_fixed; intros c Hc; [by apply Hhead|by apply Hlast].
  - by apply collapse_slashes_Forall.
  - by apply collapse_slashes_done.
Qed.

Section MoreClientFacts.
Context `{rt : Runtime}.

Lemma safe_call_single_eq {A} (self : Obsidian) (r : Request)
    (v : Response -> A) (operation : option pystr)
    (context : option (list (pystr * pystr))) (s : state) :
  _safe_call self
    (bind (requests_send r)
       (fun response => bind (raise_for_status response)
                          (fun _ => ret (v response))))
    operation context s
  = let '(res, w) := send r (net s) in
    let s' := {| net := w; sent := sent s ++ [r] |} in
    match res with
    | inl msg => on_request_exception self msg operation s'
    | inr resp =>
        match raise_for_status resp s' with
        | (Return _, _) => (Return (v resp), s')
        | (Raise _, _) => on_http_error self resp operation context s'
        end
    end.
Proof.
  unfold _safe_call, try_except, bind, requests_send.
  destruct (send r (net s)) as [[msg|resp] w]; [done|].
  unfold raise_for_status, raise, ret.
  destruct (_ && _)%Z; [done|]. destruct (_ && _)%Z; done.
Qed.

Lemma safe_call_single_state {A} (self : Obsidian) (r : Request)
    (v : Response -> A) (operation : option pystr)
    (context : option (list (pystr * pystr))) (s : state) :
  snd (_safe_call self
         (bind (requests_send r)
            (fun response => bind (raise_for_status response)
                               (fun _ => ret (v response))))
         operation context s)
  = {| net := snd (send r (net s)); sent := sent s ++ [r] |}.
Proof.
  rewrite safe_call_single_eq.
  destruct (send r (net s)) as [[msg|resp] w]; cbv zeta.
  - by destruct (on_request_exception_state (A := A) self msg operation
                   {| net := w; sent := sent s ++ [r] |}) as [e ->].
  - destruct (raise_for_status resp _) as [[u|e] s1]; [done|].
    by destruct (on_http_error_state (A := A) self resp operation context
                   {| net := w; sent := sent s ++ [r] |}) as [e' ->].
Qed.

Lemma get_file_contents_state (self : Obsidian) (filepath : pystr)
    (s : state) :
  snd (get_file_contents self filepath s)
  = {| net := snd (send (get_file_request self filepath) (net s));
       sent := sent s ++ [get_file_request self filepath] |}.
Proof.
  unfold get_file_contents. fold (get_file_request self filepath).
  apply (safe_call_single_state self _ text).
Qed.


Lemma raise_for_status_ok (resp : Response) (s : state) :
  (status_code resp < 400 \/ 600 <= status_code resp)%Z ->
  raise_for_status resp s = (Return tt, s).
Proof.
  intros H. unfold raise_for_status. cbv zeta.
  destruct (Z.leb_spec 400 (status_code resp));
    destruct (Z.ltb_spec (status_code resp) 500);
    destruct (Z.leb_spec 500 (status_code resp));
    destruct (Z.ltb_spec (status_code resp) 600);
    simpl; try lia; reflexivity.
Qed.

Lemma raise_for_status_error (resp : Response) (s : state) :
  (400 <= status_code resp < 600)%Z ->
  exists msg, raise_for_status resp s = (Raise (HTTPError msg resp), s).
Proof.
  intros H. unfold raise_for_status, raise. cbv zeta.
  destruct (Z.leb_spec 400 (status_code resp));
    destruct (Z.ltb_spec (status_code resp) 500);
    destruct (Z.leb_spec 500 (status_code resp));
    destruct (Z.ltb_spec (status_code resp) 600);
    simpl; try lia; by eexists.
Qed.

(** X5.  An answer counts as a failure exactly when its status is in
    400..599: below 400 or from 600 on, [get_file_contents] returns the text
    of the body, and in between it raises. *)
Theorem get_file_contents_success_iff (self : Obsidian) (filepath : pystr)
    (s : state) (resp : Response) (w : world) :
  send (get_file_request self filepath) (net s) = (inr resp, w) ->
  ((status_code resp < 400 \/ 600 <= status_code resp)%Z ->
   fst (get_file_contents self filepath s) = Return (text resp))
  /\ ((400 <= status_code resp < 600)%Z ->
      exists e, fst (get_file_contents self filepath s) = Raise e).
Proof.
  intros Hsend. rewrite get_file_contents_eq, Hsend. cbv zeta. split; intros H.
  - by rewrite raise_for_status_ok.
  - destruct (raise_for_status_error resp
                {| net := w; sent := sent s ++ [get_file_request self filepath] |} H)
      as [m ->].
    destruct (on_http_error_state (A := pystr) self resp
                (Some (str "get_file_contents"))
                (Some [(str "filepath", _normalize_path filepath)])
                {| net := w; sent := sent s ++ [get_file_request self filepath] |})
      as [e ->].
    by exists e.
Qed.

Lemma on_request_exception_eq {A} (self : Obsidian) (msg op : pystr)
    (s : state) :
  op <> [] ->
  on_request_exception (A := A) self msg (Some op) s
  = (Raise (Exception
       (let base := (str "Request failed: " ++ msg)
                    ++ nl ++ str "Operation: " ++ op in
        if py_contains (str "Connection refused") msg
        then base ++ nl
             ++ str "Suggestion: Verify that Obsidian is running and the Local REST API plugin is enabled. Check that the host ("
             ++ host self ++ str ") and port (" ++ str_of_Z (port self)
             ++ str ") are correct."
        else base)), s).
Proof. intros H. destruct op as [|c t]; [done|reflexivity]. Qed.

(** X7.  When the connection is refused, [get_file_contents] raises an
    [Exception] whose message starts with [Request failed: ] and the
    original message, names the operation, and carries the host and the
    port of the client. *)
Theorem get_file_contents_connection_refused (self : Obsidian)
    (filepath : pystr) (s : state) (msg : pystr) (w : world) :
  send (get_file_request self filepath) (net s) = (inl msg, w) ->
  py_contains (str "Connection refused") msg = true ->
  exists text,
    fst (get_file_contents self filepath s) = Raise (Exception text)
    /\ py_startswith (str "Request failed: " ++ msg) text = true
    /\ py_contains (str "Operation: get_file_contents") text = true
    /\ py_contains (host self) text = true
    /\ py_contains (str_of_Z (port self)) text = true.
Proof.
  intros Hsend Hmsg. rewrite get_file_contents_eq, Hsend. cbv zeta.
  rewrite on_request_exception_eq by done. cbv zeta. rewrite Hmsg.
  eexists. split; [reflexivity|]. split; [|split; [|split]].
  - rewrite <- !app_assoc. rewrite (app_assoc (str "Request failed: ")).
    apply py_startswith_app.
  - rewrite <- !app_assoc.
    do 3 apply py_contains_app_r. rewrite app_assoc. apply (py_contains_app _ []).
  - rewrite <- !app_assoc.
    do 7 apply py_contains_app_r. apply (py_contains_app _ []).
  - rewrite <- !app_assoc.
    do 9 apply py_contains_app_r. apply (py_contains_app _ []).
Qed.

End MoreClientFacts.

Section PatchFacts.
Context `{rt : Runtime}.

Lemma patch_content_valid_eq (self : Obsidian)
    (filepath operation target_type target content q : pystr)
    (create_if_missing trim_whitespace : bool) (s : state) :
  operation ∈ valid_operations ->
  target_type ∈ valid_target_types ->
  target <> [] ->
  quote target = Return q ->
  patch_content self filepath operation target_type target content
    create_if_missing trim_whitespace s
  = _safe_call self
      (bind (requests_send
               (patch_request self filepath operation target_type q content
                  create_if_missing trim_whitespace))
         (fun response => bind (raise_for_status response) (fun _ => ret tt)))
      (Some (str "patch_content"))
      (Some [(str "filepath", _normalize_path filepath);
             (str "operation", operation);
             (str "target_type", target_type);
             (str "target", target);
             (str "create_if_missing", str_of_bool create_if_missing);
             (str "trim_whitespace", str_of_bool trim_whitespace)])
      s.
Proof.
  intros Hop Hty Ht Hq. unfold patch_content.
  rewrite !bool_decide_eq_true_2 by done.
  destruct target as [|c t]; [done|]. cbv zeta. simpl negb. cbv iota.
  unfold bind at 1. unfold lift_outcome. rewrite Hq.
  unfold patch_request, patch_headers.
  by destruct create_if_missing, trim_whitespace; rewrite ?app_nil_r, <- ?app_assoc.
Qed.

(** When [quote] raises, its exception leaves [patch_content] as it is and
    nothing is sent. *)
Lemma patch_content_quote_raises (self : Obsidian)
    (filepath operation target_type target content : pystr)
    (create_if_missing trim_whitespace : bool) (s : state) (e : exn) :
  operation ∈ valid_operations ->
  target_type ∈ valid_target_types ->
  target <> [] ->
  quote target = Raise e ->
  patch_content self filepath operation target_type target content
    create_if_missing trim_whitespace s = (Raise e, s).
Proof.
  intros Hop Hty Ht Hq. unfold patch_content.
  rewrite !bool_decide_eq_true_2 by done.
  destruct target as [|c t]; [done|]. cbv zeta. simpl negb. cbv iota.
  unfold bind at 1. unfold lift_outcome. by rewrite Hq.
Qed.

Lemma patch_content_invalid (self : Obsidian)
    (filepath operation target_type target content : pystr)
    (create_if_missing trim_whitespace : bool) (s : state) :
  ~ (operation ∈ valid_operations /\ target_type ∈ valid_target_types
     /\ target <> []) ->
  exists msg,
    patch_content self filepath operation target_type target content
      create_if_missing trim_whitespace s = (Raise (ValueError msg), s).
Proof.
  intros H. unfold patch_content.
  case_bool_decide as Hop; simpl; [|by eexists].
  case_bool_decide as Hty; simpl; [|by eexists].
  destruct target as [|c t]; simpl; [by eexists|].
  exfalso. apply H. done.
Qed.

Lemma patch_content_state (self : Obsidian)
    (filepath operation target_type target content q : pystr)
    (create_if_missing trim_whitespace : bool) (s : state) :
  operation ∈ valid_operations ->
  target_type ∈ valid_target_types ->
  target <> [] ->
  quote target = Return q ->
  let r := patch_request self filepath operation target_type q content
             create_if_missing trim_whitespace in
  snd (patch_content self filepath operation target_type target content
         create_if_missing trim_whitespace s)
  = {| net := snd (send r (net s)); sent := sent s ++ [r] |}.
Proof.
  intros Hop Hty Ht Hq r. rewrite (patch_content_valid_eq _ _ _ _ _ _ q) by done.
  apply (safe_call_single_state self r (fun _ => tt)).
Qed.

(** X8.  With a valid operation, a valid target type and a non-empty
    target that [quote] accepts, [patch_content] puts exactly one request
    on the wire: a [PATCH] of the normalized path with the operation, the
    target type and the quoted target in its headers and the content as its
    body. *)
Theorem patch_content_one_request (self : Obsidian)
    (filepath operation target_type target content q : pystr)
    (create_if_missing trim_whitespace : bool) (s : state) :
  operation ∈ valid_operations ->
  target_type ∈ valid_target_types ->
  target <> [] ->
  quote target = Return q ->
  let r := patch_request self filepath operation target_type q content
             create_if_missing trim_whitespace in
  snd (patch_content self filepath operation target_type target content
         create_if_missing trim_whitespace s)
  = {| net := snd (send r (net s)); sent := sent s ++ [r] |}.
Proof. apply patch_content_state. Qed.

(** Any call of [patch_content] sends at most one request, a [PATCH]. *)
Lemma patch_content_sent (self : Obsidian)
    (filepath operation target_type target content : pystr)
    (create_if_missing trim_whitespace : bool) (s : state) :
  exists l,
    sent (snd (patch_content self filepath operation target_type target content
                 create_if_missing trim_whitespace s)) = sent s ++ l
    /\ (l = [] \/ exists r, l = [r] /\ req_method r = PATCH).
Proof.
  destruct (decide (operation ∈ valid_operations /\ target_type ∈ valid_target_types
                    /\ target <> [])) as [(Hop & Hty & Ht)|Hn].
  - destruct (quote target) as [q|e] eqn:Hq.
    + eexists. split; [by rewrite (patch_content_state _ _ _ _ _ _ q)|].
      right. by eexists.
    + rewrite (patch_content_quote_raises _ _ _ _ _ _ _ _ _ e) by done.
      exists []. split; [by rewrite app_nil_r|by left].
  - destruct (patch_content_invalid self filepath operation target_type target
                content create_if_missing trim_whitespace s Hn) as [msg ->].
    exists []. split; [by rewrite app_nil_r|by left].
Qed.

(** X9.  [try_patch_content] never raises: it returns [(True, None)] or
    [(False, message)], having sent at most two requests, all of them
    [PATCH]. *)
Theorem try_patch_content_total (self : Obsidian)
    (filepath operation target_type target content : pystr)
    (fallback_operation : option pystr) (s : state) :
  exists (m : option pystr) (l : list Request),
    fst (try_patch_content self filepath operation target_type target content
           fallback_operation s)
    = Return (bool_decide (m = None), m)
    /\ sent (snd (try_patch_content self filepath operation target_type target
                    content fallback_operation s)) = sent s ++ l
    /\ (length l <= 2)%nat
    /\ Forall (fun r => req_method r = PATCH) l.
Proof.
  unfold try_patch_content, try_except, bind.
  destruct (patch_content_sent self filepath operation target_type target content
              false false s) as (l1 & Hs1 & Hl1).
  assert (Hb1 : (length l1 <= 1)%nat /\ Forall (fun r => req_method r = PATCH) l1).
  { destruct Hl1 as [-> | (r & -> & Hr)]; split; simpl; try lia;
      repeat constructor; done. }
  destruct Hb1 as [Hn1 Hp1].
  destruct (patch_content self filepath operation target_type target content
              false false s) as [[u|e] s1]; simpl in Hs1.
  - exists None, l1. split; [done|]. split; [done|]. split; [lia|done].
  - destruct fallback_operation as [[|c fb]|].
    + exists (Some (exn_str e)), l1.
      split; [done|]. split; [done|]. split; [lia|done].
    + destruct (patch_content_sent self filepath (c :: fb) target_type target
                  content false false s1) as (l2 & Hs2 & Hl2).
      assert (Hb2 : (length l2 <= 1)%nat
                    /\ Forall (fun r => req_method r = PATCH) l2).
      { destruct Hl2 as [-> | (r & -> & Hr)]; split; simpl; try lia;
          repeat constructor; done. }
      destruct Hb2 as [Hn2 Hp2].
      destruct (patch_content self filepath (c :: fb) target_type target content
                  false false s1) as [[u|e2] s2]; simpl in Hs2.
      * exists None, (l1 ++ l2). split; [done|].
        split; [simpl; by rewrite Hs2, Hs1, app_assoc|].
        split; [rewrite length_app; lia|by apply Forall_app].
      * exists (Some (exn_str e2)), (l1 ++ l2). split; [done|].
        split; [simpl; by rewrite Hs2, Hs1, app_assoc|].
        split; [rewrite length_app; lia|by apply Forall_app].
    + exists (Some (exn_str e)), l1.
      split; [done|]. split; [done|]. split; [lia|done].
Qed.

(** X10.  With a non-empty heading that [quote] accepts, [add_to_heading]
    sends one [PATCH] on target type [heading] with whitespace trimming on;
    the operation is [append] when [position] is ["end"] and [prepend] for
    every other value of [position]. *)
Theorem add_to_heading_request (self : Obsidian)
    (filepath heading content position q : pystr) (s : state) :
  heading <> [] ->
  quote heading = Return q ->
  let operation :=
    if bool_decide (position = str "end") then str "append" else str "prepend" in
  let r := patch_request self filepath operation (str "heading") q content
             false true in
  snd (add_to_heading self filepath heading content position s)
  = {| net := snd (send r (net s)); sent := sent s ++ [r] |}.
Proof.
  intros Hh Hq operation r. unfold add_to_heading. fold operation.
  apply patch_content_state; [|by apply (bool_decide_unpack _)|done|done].
  unfold operation. case_bool_decide; by apply (bool_decide_unpack _).
Qed.

End PatchFacts.

Lemma lstrip_hash_head (tag : pystr) :
  head (py_lstrip_chars (str "#") tag) <> Some ch_hash.
Proof.
  intros H. apply lstrip_by_head in H. vm_compute in H. discriminate.
Qed.

Lemma scan_tags_line_cons (x : pystr) (rest : list pystr) (b : bool) :
  scan_tags_line (x :: rest) b =
  if bool_decide (py_strip x = str "---") then scan_tags_line rest (negb b)
  else if b && py_startswith (str "tags:") (py_strip x) then Some (py_strip x)
  else scan_tags_line rest b.
Proof. reflexivity. Qed.

Lemma scan_tags_line_found (lines : list pystr) (b : bool) (l : pystr) :
  scan_tags_line lines b = Some l ->
  exists pre line post,
    lines = pre ++ line :: post
    /\ l = py_strip line
    /\ py_startswith (str "tags:") l = true
    /\ (b = true \/ Exists (fun x => py_strip x = str "---") pre).
Proof.
  revert b. induction lines as [|x rest IH]; intros b; [done|].
  rewrite scan_tags_line_cons.
  case_bool_decide as Hf.
  - intros H. destruct (IH _ H) as (pre & line & post & -> & Hl & Hs & Hb).
    exists (x :: pre), line, post. repeat split; try done.
    right. by apply Exists_cons_hd.
  - destruct (b && py_startswith (str "tags:") (py_strip x)) eqn:E.
    + intros [= Hl]. subst l. apply andb_true_iff in E as [Eb E].
      exists [], x, rest. repeat split; try done. by left.
    + intros H. destruct (IH _ H) as (pre & line & post & -> & Hl & Hs & Hb).
      exists (x :: pre), line, post. repeat split; try done.
      destruct Hb as [Hb|Hb]; [by left|right; by apply Exists_cons_tl].
Qed.

(** X11.  The tags line that [add_tag] finds is the trimmed form of a line
    that starts with [tags:] and comes after a line that trims to [---]; a
    [tags:] line with no such line before it is not found. *)
Theorem scan_tags_line_in_frontmatter (lines : list pystr) (l : pystr) :
  scan_tags_line lines false = Some l ->
  exists pre line post,
    lines = pre ++ line :: post
    /\ l = py_strip line
    /\ py_startswith (str "tags:") l = true
    /\ Exists (fun x => py_strip x = str "---") pre.
Proof.
  intros H. destruct (scan_tags_line_found lines false l H)
    as (pre & line & post & E & Hl & Hs & [Hb|Hb]); [done|].
  by exists pre, line, post.
Qed.

Section TagFacts.
Context `{rt : Runtime}.

Lemma patch_tags_append_state (self : Obsidian) (filepath tag q : pystr)
    (s : state) :
  quote (str "tags") = Return q ->
  let r := patch_request self filepath (str "append") (str "frontmatter")
             q (str ", " ++ tag) true false in
  snd (patch_tags_append self filepath tag s)
  = {| net := snd (send r (net s)); sent := sent s ++ [r] |}.
Proof.
  intros Hq. unfold patch_tags_append.
  apply patch_content_state; [by apply (bool_decide_unpack _)..|done|done].
Qed.

Lemma patch_tags_replace_state (self : Obsidian) (filepath tag q : pystr)
    (s : state) :
  quote (str "tags") = Return q ->
  let r := patch_request self filepath (str "replace") (str "frontmatter")
             q (str "[" ++ tag ++ str "]") true false in
  snd (patch_tags_replace self filepath tag s)
  = {| net := snd (send r (net s)); sent := sent s ++ [r] |}.
Proof.
  intros Hq. unfold patch_tags_replace.
  apply patch_content_state; [by apply (bool_decide_unpack _)..|done|done].
Qed.

(** X12.  [add_tag] reads the note and then patches the frontmatter field
    [tags].  When the read raises there is one patch, the replace by
    [[tag]].  When the read returns, the first patch is the append of
    [, tag] if the scan found a tags line and the replace otherwise; a
    second patch, the replace, follows exactly when the first one raised,
    and when the first one returned [add_tag] returns.  The tag sent never
    starts with the marker.  ([q] is the quoted field name.) *)
Theorem add_tag_requests (self : Obsidian) (filepath tag q : pystr) (s : state) :
  quote (str "tags") = Return q ->
  let tag' := py_lstrip_chars (str "#") tag in
  let G := get_file_request self filepath in
  let A := patch_request self filepath (str "append") (str "frontmatter")
             q (str ", " ++ tag') true false in
  let R := patch_request self filepath (str "replace") (str "frontmatter")
             q (str "[" ++ tag' ++ str "]") true false in
  head tag' <> Some ch_hash
  /\ match get_file_contents self filepath s with
     | (Raise _, _) =>
         sent (snd (add_tag self filepath tag s)) = sent s ++ [G; R]
     | (Return content, s1) =>
         let found :=
           match scan_tags_line (py_split ch_newline content) false with
           | Some _ => true
           | None => false
           end in
         let first := if found then A else R in
         match (if found then patch_tags_append self filepath tag' s1
                else patch_tags_replace self filepath tag' s1) with
         | (Return _, _) =>
             fst (add_tag self filepath tag s) = Return tt
             /\ sent (snd (add_tag self filepath tag s)) = sent s ++ [G; first]
         | (Raise _, _) =>
             sent (snd (add_tag self filepath tag s)) = sent s ++ [G; first; R]
         end
     end.
Proof.
  intros Hq tag' G A R. split; [apply lstrip_hash_head|].
  unfold add_tag. fold tag'. unfold try_except, bind.
  pose proof (get_file_contents_state self filepath s) as Hg. fold G in Hg.
  destruct (get_file_contents self filepath s) as [[c|e] s1]; simpl in Hg.
  - destruct (scan_tags_line (py_split ch_newline c) false) as [[|x l]|] eqn:Hscan.
    + apply scan_tags_line_found in Hscan as (pre & y & post & _ & Hl & Hs & _).
      vm_compute in Hs. discriminate Hs.
    + cbv zeta.
      pose proof (patch_tags_append_state self filepath tag' q s1 Hq) as H1.
      fold A in H1.
      destruct (patch_tags_append self filepath tag' s1) as [[[]|e1] s2];
        simpl in H1.
      * subst. simpl. split; [done|by rewrite <- app_assoc].
      * pose proof (patch_tags_replace_state self filepath tag' q s2 Hq) as H2.
        fold R in H2.
        destruct (patch_tags_replace self filepath tag' s2) as [o s3]; simpl in H2.
        subst. simpl. by rewrite <- !app_assoc.
    + cbv zeta.
      pose proof (patch_tags_replace_state self filepath tag' q s1 Hq) as H1.
      fold R in H1.
      destruct (patch_tags_replace self filepath tag' s1) as [[[]|e1] s2] eqn:E1;
        simpl in H1.
      * subst. simpl. split; [done|by rewrite <- app_assoc].
      * pose proof (patch_tags_replace_state self filepath tag' q s2 Hq) as H2.
        fold R in H2.
        destruct (patch_tags_replace self filepath tag' s2) as [o s3]; simpl in H2.
        subst. simpl. by rewrite <- !app_assoc.
  - pose proof (patch_tags_replace_state self filepath tag' q s1 Hq) as H1.
    fold R in H1.
    destruct (patch_tags_replace self filepath tag' s1) as [o s2]; simpl in H1.
    subst. simpl. by rewrite <- app_assoc.
Qed.


Lemma put_content_state (self : Obsidian) (filepath content action : pystr)
    (s : state) :
  let r := put_request self filepath content in
  snd (put_content self filepath content action s)
  = {| net := snd (send r (net s)); sent := sent s ++ [r] |}.
Proof.
  intros r. unfold put_content.
  apply (safe_call_single_state self r (fun _ => tt)).
Qed.

Lemma append_content_state (self : Obsidian) (filepath content : pystr)
    (s : state) :
  let r := append_request self filepath content in
  snd (append_content self filepath content s)
  = {| net := snd (send r (net s)); sent := sent s ++ [r] |}.
Proof.
  intros r. unfold append_content. fold (append_request self filepath content).
  apply (safe_call_single_state self r (fun _ => tt)).
Qed.

(** X14.  [create_or_update_note] sends the [GET] of the note first.  When
    that read raises, one write follows, the [PUT].  When it returns, the
    first write is the [PUT] if [overwrite] is set and the [POST] of the
    append if it is not; a second write, the [PUT], follows exactly when the
    first one raised, and when the first one returned the method returns. *)
Theorem create_or_update_note_requests (self : Obsidian)
    (filepath content : pystr) (overwrite : bool) (s : state) :
  let p := _normalize_path filepath in
  let G := get_file_request self p in
  let P := put_request self p content in
  let A := append_request self p content in
  match get_file_contents self p s with
  | (Raise _, _) =>
      sent (snd (create_or_update_note self filepath content overwrite s))
      = sent s ++ [G; P]
  | (Return _, s1) =>
      let first := if overwrite then P else A in
      match (if overwrite then put_content self p content (str "overwrite") s1
             else append_content self p content s1) with
      | (Return _, _) =>
          fst (create_or_update_note self filepath content overwrite s) = Return tt
          /\ sent (snd (create_or_update_note self filepath content overwrite s))
             = sent s ++ [G; first]
      | (Raise _, _) =>
          sent (snd (create_or_update_note self filepath content overwrite s))
          = sent s ++ [G; first; P]
      end
  end.
Proof.
  intros p G P A. unfold create_or_update_note. fold p.
  unfold try_except, bind.
  pose proof (get_file_contents_state self p s) as Hg. fold G in Hg.
  destruct (get_file_contents self p s) as [[c|e] s1]; simpl in Hg.
  - destruct overwrite; cbv zeta.
    + pose proof (put_content_state self p content (str "overwrite") s1) as H1.
      fold P in H1.
      destruct (put_content self p content (str "overwrite") s1) as [[[]|e1] s2];
        simpl in H1.
      * subst. simpl. split; [done|by rewrite <- app_assoc].
      * pose proof (put_content_state self p content (str "create") s2) as H2.
        fold P in H2.
        destruct (put_content self p content (str "create") s2) as [o s3];
          simpl in H2.
        subst. simpl. by rewrite <- !app_assoc.
    + pose proof (append_content_state self p content s1) as H1. fold A in H1.
      destruct (append_content self p content s1) as [[[]|e1] s2]; simpl in H1.
      * subst. simpl. split; [done|by rewrite <- app_assoc].
      * pose proof (put_content_state self p content (str "create") s2) as H2.
        fold P in H2.
        destruct (put_content self p content (str "create") s2) as [o s3];
          simpl in H2.
        subst. simpl. by rewrite <- !app_assoc.
  - pose proof (put_content_state self p content (str "create") s1) as H1.
    fold P in H1.
    destruct (put_content self p content (str "create") s1) as [o s2]; simpl in H1.
    subst. simpl. by rewrite <- app_assoc.
Qed.


End TagFacts.

Lemma py_split1_cut (sep : N) (s : pystr) :
  py_contains [sep] s = true ->
  exists a b, py_split1 sep s = [a; b] /\ s = a ++ sep :: b.
Proof.
  induction s as [|c t IH]; [done|].
  rewrite py_contains_cons, py_startswith_single. simpl.
  rewrite (N.eqb_sym c sep).
  destruct (sep =? c) eqn:E.
  - intros _. apply N.eqb_eq in E as ->. by exists [], t.
  - simpl. intros H. destruct (IH H) as (a & b & -> & ->).
    by exists (c :: a), b.
Qed.

Lemma lstrip_by_last (p : N -> bool) (s : pystr) (c : N) :
  last s = Some c -> p c = false -> last (lstrip_by p s) = Some c.
Proof.
  intros Hl Hc. destruct (lstrip_by_suffix p s) as (pre & E & F).
  rewrite E in Hl. rewrite last_app in Hl.
  destruct (last (lstrip_by p s)) as [d|]; [done|].
  apply last_Some in Hl as [l' ->].
  apply Forall_app in F as [_ F]. apply Forall_cons in F as [F _]. congruence.
Qed.

Lemma rstrip_by_fixed (p : N -> bool) (s : pystr) (c : N) :
  last s = Some c -> p c = false -> rstrip_by p s = s.
Proof.
  intros Hl Hc. unfold rstrip_by.
  rewrite lstrip_by_fixed; [by rewrite rev_involutive|].
  destruct (rev s) as [|d t] eqn:E; [done|].
  rewrite <- (rev_involutive s), E, last_rev_head in Hl. by injection Hl as ->.
Qed.

(** A string whose last character is not stripped keeps it. *)
Lemma strip_by_last_kept (p : N -> bool) (s : pystr) (c : N) :
  last s = Some c -> p c = false -> last (strip_by p s) = Some c.
Proof.
  intros Hl Hc. unfold strip_by.
  pose proof (lstrip_by_last p s c Hl Hc) as H.
  by rewrite (rstrip_by_fixed p _ c H Hc).
Qed.

Lemma count_level_pos (s : pystr) :
  py_startswith (str "#") s = true -> (1 <= count_level s)%nat.
Proof.
  intros H. apply py_startswith_inv in H as [post ->].
  change (count_level (str "#" ++ post)) with (S (count_level post)). lia.
Qed.

(** What one step of the scan adds. *)
Lemma heading_step_cases (headings : list heading_info) (line : pystr) :
  heading_step headings line = headings
  \/ exists h,
       heading_step headings line = headings ++ [h]
       /\ (1 <= h_level h)%nat
       /\ py_strip (h_text h) = h_text h
       /\ h_text h <> []
       /\ h_path h = path_after headings (h_level h) (h_text h).
Proof.
  unfold heading_step. destruct (is_heading_line line) eqn:E; [right|by left].
  cbv zeta. eexists. split; [reflexivity|]. simpl.
  unfold is_heading_line in E. apply andb_true_iff in E as [Eh Es].
  split; [by apply count_level_pos|].
  split; [apply strip_by_idem|]. split.
  - change (str " ") with [ch_space] in Es.
    destruct (py_split1_cut ch_space _ Es) as (a & b & -> & Eab). simpl.
    destruct (last (py_strip line)) as [c|] eqn:El.
    + assert (Hc : is_space c = false) by (by eapply strip_by_last).
      rewrite Eab in El. rewrite last_app in El.
      destruct (last (ch_space :: b)) as [d|] eqn:Ed; [|by apply last_None in Ed].
      injection El as ->.
      rewrite last_cons in Ed.
      destruct (last b) as [d|] eqn:Eb;
        [injection Ed as ->|injection Ed as <-; discriminate Hc].
      intros Hn. pose proof (strip_by_last_kept is_space b c Eb Hc) as Hk.
      unfold py_strip in Hn. by rewrite Hn in Hk.
    + apply last_None in El. rewrite El in Eab. by destruct a.
  - unfold path_after.
    by destruct (List.find _ (rev headings)).
Qed.

Lemma snoc_split {A} (l pre post : list A) (x h : A) :
  l ++ [x] = pre ++ h :: post ->
  (post = [] /\ pre = l /\ h = x)
  \/ exists post', post = post' ++ [x] /\ l = pre ++ h :: post'.
Proof.
  intros H. destruct post as [|y post' _] using rev_ind.
  - left. apply app_inj_tail in H as [-> ->]. done.
  - right. exists post'.
    rewrite app_comm_cons, app_assoc in H.
    apply app_inj_tail in H as [-> ->]. done.
Qed.

(** A property of an entry and of the entries before it holds all along
    the scan when every step establishes it for the entry it adds. *)
Lemma scan_invariant (Q : list heading_info -> heading_info -> Prop) :
  (forall hs line h, heading_step hs line = hs ++ [h] ->
     (forall pre h' post, hs = pre ++ h' :: post -> Q pre h') -> Q hs h) ->
  forall lines hs0,
    (forall pre h post, hs0 = pre ++ h :: post -> Q pre h) ->
    forall pre h post,
      fold_left heading_step lines hs0 = pre ++ h :: post -> Q pre h.
Proof.
  intros Hstep lines. induction lines as [|line rest IH]; intros hs0 H0; [done|].
  simpl. apply IH.
  destruct (heading_step_cases hs0 line) as [-> | (h' & E & _)]; [done|].
  intros pre h post Hsplit. rewrite E in Hsplit.
  apply snoc_split in Hsplit as [(-> & -> & ->) | (post' & -> & ->)].
  - by eapply Hstep.
  - by eapply H0.
Qed.

Lemma heading_step_added (hs : list heading_info) (line : pystr) (h : heading_info) :
  heading_step hs line = hs ++ [h] ->
  (1 <= h_level h)%nat
  /\ py_strip (h_text h) = h_text h
  /\ h_text h <> []
  /\ h_path h = path_after hs (h_level h) (h_text h).
Proof.
  intros E. destruct (heading_step_cases hs line) as [E' | (h' & E' & H)].
  - rewrite E' in E. apply (f_equal length) in E.
    rewrite length_app in E. simpl in E. lia.
  - rewrite E' in E. apply app_inj_tail in E as [_ ->]. done.
Qed.

Lemma scan_entries_inv (content : pystr) (pre post : list heading_info)
    (h : heading_info) :
  scan_headings content = pre ++ h :: post ->
  (1 <= h_level h)%nat
  /\ h_text h <> []
  /\ py_strip (h_text h) = h_text h.
Proof.
  unfold scan_headings.
  apply (scan_invariant (fun _ h => (1 <= h_level h)%nat /\ h_text h <> []
                                    /\ py_strip (h_text h) = h_text h)).
  - intros hs line h' E _. apply heading_step_added in E. tauto.
  - intros pre' h' post' E. by destruct pre'.
Qed.

Lemma scan_path_inv (content : pystr) (pre post : list heading_info)
    (h : heading_info) :
  scan_headings content = pre ++ h :: post ->
  h_path h = path_after pre (h_level h) (h_text h).
Proof.
  unfold scan_headings.
  apply (scan_invariant (fun pre h => h_path h = path_after pre (h_level h) (h_text h))).
  - intros hs line h' E _. apply heading_step_added in E. tauto.
  - intros pre' h' post' E. by destruct pre'.
Qed.

(** X16.  Every entry of the scan has a level of at least 1 and a text
    that is not empty and has no whitespace at its ends. *)
Theorem scan_headings_entries (content : pystr) (pre post : list heading_info)
    (h : heading_info) :
  scan_headings content = pre ++ h :: post ->
  (1 <= h_level h)%nat
  /\ h_text h <> []
  /\ py_strip (h_text h) = h_text h.
Proof. apply scan_entries_inv. Qed.

(** X17.  The path of an entry is its text, prefixed by the text of the
    nearest earlier entry of strictly smaller level and [::] when there is
    one. *)
Theorem scan_headings_path (content : pystr) (pre post : list heading_info)
    (h : heading_info) :
  scan_headings content = pre ++ h :: post ->
  h_path h = path_after pre (h_level h) (h_text h).
Proof. apply scan_path_inv. Qed.

Lemma find_none_Forall {A} (f : A -> bool) (l : list A) :
  Forall (fun x => f x = false) l -> List.find f l = None.
Proof. induction 1 as [|x l Hx _ IH]; simpl; [done|]. by rewrite Hx. Qed.

(** X18.  The path of a heading of level 1 is its own text, whatever comes
    before it. *)
Theorem scan_headings_top_level (content : pystr) (pre post : list heading_info)
    (h : heading_info) :
  scan_headings content = pre ++ h :: post ->
  h_level h = 1%nat ->
  h_path h = h_text h.
Proof.
  intros E Hl. rewrite (scan_path_inv content pre post h E), Hl.
  unfold path_after. rewrite find_none_Forall; [done|].
  apply Forall_rev, Forall_forall. intros x Hx.
  apply list_elem_of_split in Hx as (l1 & l2 & ->).
  rewrite <- app_assoc in E. simpl in E.
  apply scan_entries_inv in E as [Hge _].
  apply Nat.ltb_ge. lia.
Qed.

Lemma py_split_nonempty (sep : N) (s : pystr) : py_split sep s <> [].
Proof.
  induction s as [|c t IH]; simpl; [done|].
  destruct (c =? sep); [done|]. by destruct (py_split sep t).
Qed.

Lemma py_split_app (sep : N) (a b : pystr) :
  py_split sep (a ++ sep :: b) = py_split sep a ++ py_split sep b.
Proof.
  induction a as [|c t IH]; simpl.
  - by rewrite N.eqb_refl.
  - destruct (c =? sep); [by rewrite IH|].
    rewrite IH. pose proof (py_split_nonempty sep t).
    by destruct (py_split sep t).
Qed.

Lemma fold_heading_extends (lines : list pystr) (hs : list heading_info) :
  exists more, fold_left heading_step lines hs = hs ++ more.
Proof.
  revert hs. induction lines as [|line rest IH]; intros hs; simpl.
  - exists []. by rewrite app_nil_r.
  - destruct (heading_step_cases hs line) as [-> | (h & -> & _)]; [apply IH|].
    destruct (IH (hs ++ [h])) as [more ->].
    exists (h :: more). by rewrite <- app_assoc.
Qed.

(** X19.  Text added after a note, from a new line on, adds entries to the
    scan and changes none of those of the note. *)
Theorem scan_headings_append_stable (a b : pystr) :
  exists more, scan_headings (a ++ nl ++ b) = scan_headings a ++ more.
Proof.
  unfold scan_headings.
  change (a ++ nl ++ b) with (a ++ ch_newline :: b).
  rewrite py_split_app, fold_left_app. apply fold_heading_extends.
Qed.

Section MoreFacts.
Context `{rt : Runtime}.

(** X20.  [find_headings] never raises: for every path and every server it
    returns a list, having sent the one [GET] of the note. *)
Theorem find_headings_total (self : Obsidian) (filepath : pystr) (s : state) :
  exists headings,
    find_headings self filepath s
    = (Return headings,
       {| net := snd (send (get_file_request self filepath) (net s));
          sent := sent s ++ [get_file_request self filepath] |}).
Proof.
  unfold find_headings, try_except, bind.
  pose proof (get_file_contents_state self filepath s) as H.
  destruct (get_file_contents self filepath s) as [[c|e] s1]; simpl in H;
    subst s1; by eexists.
Qed.

(** The accumulator of the loop is a prefix of its result. *)
Lemma batch_loop_acc (self : Obsidian) (filepaths : list pystr) :
  forall (result : list pystr) (s : state),
  exists blocks s',
    batch_loop self filepaths [] s = (Return blocks, s')
    /\ batch_loop self filepaths result s = (Return (result ++ blocks), s').
Proof.
  intros result s.
  destruct (batch_loop_blocks self filepaths [] s) as (b1 & s1 & H1 & R1).
  destruct (batch_loop_blocks self filepaths result s) as (b2 & s2 & H2 & R2).
  exists b1, s1. split; [done|]. rewrite H2.
  assert (b1 = b2 /\ s1 = s2) as [-> ->]; [|done].
  clear H1 H2. revert b2 s2 R2.
  induction R1 as [s | fp rest s c sa blocks sb Hg _ IH
                     | fp rest s e sa blocks sb Hg _ IH];
    intros b2 s2' R2;
    inversion R2 as [ | ? ? ? c2 s1 b0 ? Hg2 Hb2 | ? ? ? e2 s1 b0 ? Hg2 Hb2 ];
    subst; try done; rewrite Hg in Hg2; simplify_eq;
    by destruct (IH _ _ Hb2) as [-> ->].
Qed.

Lemma batch_loop_app (self : Obsidian) (l1 l2 : list pystr) :
  forall (result : list pystr) (s : state),
  batch_loop self (l1 ++ l2) result s =
  match batch_loop self l1 result s with
  | (Return r, s1) => batch_loop self l2 r s1
  | (Raise e, s1) => (Raise e, s1)
  end.
Proof.
  induction l1 as [|fp rest IH]; intros result s; [done|].
  simpl. unfold bind, try_except, ret.
  destruct (get_file_contents self fp s) as [[c|e] s1]; apply IH.
Qed.

(** X21.  Reading two lists of paths in one batch gives the text of the
    batch of the first followed by the text of the batch of the second, read
    from the state the first batch left. *)
Theorem get_batch_file_contents_app (self : Obsidian) (l1 l2 : list pystr)
    (s : state) :
  exists r1 s1 r2 s2,
    get_batch_file_contents self l1 s = (Return r1, s1)
    /\ get_batch_file_contents self l2 s1 = (Return r2, s2)
    /\ get_batch_file_contents self (l1 ++ l2) s = (Return (r1 ++ r2), s2).
Proof.
  destruct (batch_loop_blocks self l1 [] s) as (b1 & s1 & H1 & _).
  rewrite app_nil_l in H1.
  destruct (batch_loop_acc self l2 b1 s1) as (b2 & s2 & H2 & H2').
  exists (py_join [] b1), s1, (py_join [] b2), s2.
  unfold get_batch_file_contents, bind, ret.
  rewrite batch_loop_app, H1, H2, H2'.
  split; [done|]. split; [done|].
  by rewrite !py_join_empty_sep, concat_app.
Qed.

End MoreFacts.

Section ToolFacts.
Context `{rt : Runtime}.

Lemma run_tool_confirmed (g : Tools.globals) (args : gmap pystr pyval)
    (fp v : pyval) :
  args !! str "filepath" = Some fp ->
  args !! str "confirm" = Some v ->
  truthy v = true ->
  Tools.run_tool g args
  = bind (delete_file (Obsidian_init (Tools.g_api_key g) (Tools.g_obsidian_host g)) fp)
      (fun _ => ret [{| Tools.tc_type := str "text";
                        Tools.tc_text := str "Successfully deleted " ++ py_str fp |}]).
Proof.
  intros Hfp Hc Hv. unfold Tools.run_tool. rewrite Hfp, Hc.
  change (default (PyBool false) (Some v)) with v. by rewrite Hv.
Qed.

(** X22.  Once [confirm] is truthy, the delete tool sends one [DELETE] for
    the normalized path.  A path that normalizes to the empty string (the
    empty string, ["/"], blanks, or a falsy JSON value) makes it the
    [DELETE] of [/vault/] itself. *)
Theorem run_tool_delete_request (g : Tools.globals) (args : gmap pystr pyval)
    (s : state) (fp v : pyval) (p : pystr) :
  args !! str "filepath" = Some fp ->
  args !! str "confirm" = Some v ->
  truthy v = true ->
  _normalize_path_obj fp = Return p ->
  let api := Obsidian_init (Tools.g_api_key g) (Tools.g_obsidian_host g) in
  let r := {| req_method := DELETE;
              req_url := get_base_url api ++ str "/vault/" ++ p;
              req_headers := _get_headers api; req_data := None;
              req_verify := verify_ssl api; req_timeout := timeout api |} in
  snd (Tools.run_tool g args s)
  = {| net := snd (send r (net s)); sent := sent s ++ [r] |}.
Proof.
  intros Hfp Hc Hv Hp api r.
  rewrite (run_tool_confirmed g args fp v Hfp Hc Hv). fold api.
  unfold bind at 1. unfold delete_file, lift_outcome. unfold bind at 1.
  rewrite Hp. fold r.
  pose proof (safe_call_single_state api r (fun _ => tt)
                (Some (str "delete_file")) (Some [(str "filepath", p)]) s) as H.
  cbv beta in H.
  destruct (_safe_call api _ _ _ s) as [[u|e] s1]; simpl in H; by subst s1.
Qed.

(** X23.  A [filepath] that is truthy and not a string makes the delete
    tool raise [AttributeError] before anything is sent. *)
Theorem run_tool_delete_not_a_string (g : Tools.globals)
    (args : gmap pystr pyval) (s : state) (fp v : pyval) :
  args !! str "filepath" = Some fp ->
  args !! str "confirm" = Some v ->
  truthy v = true ->
  truthy fp = true ->
  (forall q, fp <> PyStr q) ->
  Tools.run_tool g args s
  = (Raise (AttributeError
       (str "'" ++ type_name_of fp ++ str "' object has no attribute 'strip'")), s).
Proof.
  intros Hfp Hc Hv Ht Hn.
  rewrite (run_tool_confirmed g args fp v Hfp Hc Hv).
  unfold bind at 1. unfold delete_file, lift_outcome. unfold bind at 1.
  unfold _normalize_path_obj. rewrite Ht.
  destruct fp; try done. by destruct (Hn s0).
Qed.

(** X24.  The periodic-note tool raises [RuntimeError] before anything is
    sent when [period] is absent or is not one of the five period names. *)
Theorem periodic_run_tool_rejects (g : Tools.globals) (args : gmap pystr pyval)
    (s : state) :
  (args !! str "period" = None
   \/ exists v, args !! str "period" = Some v
                /\ forall p, p ∈ PeriodicNotesToolHandler.valid_periods -> v <> PyStr p) ->
  exists msg,
    PeriodicNotesToolHandler.run_tool g args s = (Raise (RuntimeError msg), s).
Proof.
  intros H. unfold PeriodicNotesToolHandler.run_tool.
  destruct H as [-> | (v & -> & Hv)]; [by eexists|].
  assert (E : PeriodicNotesToolHandler.period_in_valid v = None).
  { unfold PeriodicNotesToolHandler.period_in_valid.
    destruct v as [| | |p|]; try done.
    case_bool_decide as Hp; [|done]. by destruct (Hv p Hp). }
  rewrite E. by eexists.
Qed.


End ToolFacts.

(** ** The further properties at work on the example servers *)

Lemma normalize_idempotent_when_trimmed_witness :
  _normalize_path (_normalize_path (str " /a//b/ ")) = _normalize_path (str " /a//b/ ").
Proof.
  apply normalize_idempotent_when_trimmed; vm_compute; reflexivity.
Defined.

Lemma normalize_idempotent_plain_witness :
  _normalize_path (_normalize_path (str "/Notes//a.md/"))
  = _normalize_path (str "/Notes//a.md/").
Proof.
  apply normalize_idempotent_plain.
  apply (bool_decide_unpack _). vm_compute. exact I.
Defined.

Lemma get_file_contents_success_iff_witness :
  fst (@get_file_contents Demo.vault_rt Demo.client (str "good.md")
         (Demo.start [(str "good.md", str "hello")]))
  = Return (str "hello").
Proof.
  apply (proj1 (@get_file_contents_success_iff Demo.vault_rt Demo.client
                  (str "good.md") (Demo.start [(str "good.md", str "hello")])
                  (Demo.ok_response
                     (req_url (get_file_request Demo.client (str "good.md")))
                     (str "hello"))
                  [(str "good.md", str "hello")]
                  ltac:(vm_compute; reflexivity))).
  left. reflexivity.
Defined.

Lemma get_file_contents_connection_refused_witness :
  exists text,
    fst (@get_file_contents Demo2.down_rt Demo.client (str "a.md")
           (@Build_state Demo2.down_rt tt []))
    = Raise (Exception text)
    /\ py_startswith (str "Request failed: " ++ str "Connection refused") text = true
    /\ py_contains (str "Operation: get_file_contents") text = true
    /\ py_contains (host Demo.client) text = true
    /\ py_contains (str_of_Z (port Demo.client)) text = true.
Proof.
  apply (@get_file_contents_connection_refused Demo2.down_rt Demo.client
           (str "a.md") (@Build_state Demo2.down_rt tt [])
           (str "Connection refused") tt).
  - reflexivity.
  - vm_compute. reflexivity.
Defined.

Lemma patch_content_one_request_witness :
  let r := patch_request Demo.client (str "a.md") (str "append")
             (str "heading") (str "Tasks") (str "x") false true in
  snd (@patch_content Demo2.store_rt Demo.client (str "a.md") (str "append")
         (str "heading") (str "Tasks") (str "x") false true (Demo2.start []))
  = @Build_state Demo2.store_rt [] [r].
Proof.
  apply (@patch_content_one_request Demo2.store_rt Demo.client (str "a.md")
           (str "append") (str "heading") (str "Tasks") (str "x") (str "Tasks")
           false true (Demo2.start []));
    [apply (bool_decide_unpack _); vm_compute; exact I..|discriminate|reflexivity].
Defined.

Lemma add_to_heading_request_witness :
  let r := patch_request Demo.client (str "a.md") (str "prepend")
             (str "heading") (str "Tasks") (str "x") false true in
  snd (@add_to_heading Demo2.store_rt Demo.client (str "a.md") (str "Tasks")
         (str "x") (str "start") (Demo2.start []))
  = @Build_state Demo2.store_rt [] [r].
Proof.
  apply (@add_to_heading_request Demo2.store_rt Demo.client (str "a.md")
           (str "Tasks") (str "x") (str "start") (str "Tasks") (Demo2.start []));
    [discriminate|reflexivity].
Defined.

Lemma add_tag_requests_witness :
  sent (snd (@add_tag Demo.vault_rt Demo.client (str "a.md") (str "#new")
               (Demo.start [(str "a.md", Demo2.tagged_note)])))
  = [ get_file_request Demo.client (str "a.md");
      patch_request Demo.client (str "a.md") (str "append") (str "frontmatter")
        (str "tags") (str ", new") true false;
      patch_request Demo.client (str "a.md") (str "replace") (str "frontmatter")
        (str "tags") (str "[new]") true false ].
Proof.
  pose proof (@add_tag_requests Demo.vault_rt Demo.client (str "a.md")
                (str "#new") (str "tags")
                (Demo.start [(str "a.md", Demo2.tagged_note)]) eq_refl) as [_ H].
  vm_compute in H. vm_compute. exact H.
Defined.

Lemma scan_tags_line_in_frontmatter_witness :
  exists pre line post,
    py_split ch_newline Demo2.tagged_note = pre ++ line :: post
    /\ str "tags: [x]" = py_strip line
    /\ py_startswith (str "tags:") (str "tags: [x]") = true
    /\ Exists (fun x => py_strip x = str "---") pre.
Proof.
  apply scan_tags_line_in_frontmatter. vm_compute. reflexivity.
Defined.



Lemma scan_headings_entries_witness :
  (1 <= 2)%nat /\ str "B" <> [] /\ py_strip (str "B") = str "B".
Proof.
  apply (scan_headings_entries Demo.abc_content
           [ {| h_level := 1; h_text := str "A"; h_path := str "A" |} ]
           [ {| h_level := 1; h_text := str "C"; h_path := str "C" |} ]
           {| h_level := 2; h_text := str "B"; h_path := str "A::B" |}).
  vm_compute. reflexivity.
Defined.

Lemma scan_headings_path_witness :
  str "A::B"
  = path_after [ {| h_level := 1; h_text := str "A"; h_path := str "A" |} ]
      2 (str "B").
Proof.
  apply (scan_headings_path Demo.abc_content
           [ {| h_level := 1; h_text := str "A"; h_path := str "A" |} ]
           [ {| h_level := 1; h_text := str "C"; h_path := str "C" |} ]
           {| h_level := 2; h_text := str "B"; h_path := str "A::B" |}).
  vm_compute. reflexivity.
Defined.

Lemma scan_headings_top_level_witness :
  h_path {| h_level := 1; h_text := str "C"; h_path := str "C" |} = str "C".
Proof.
  apply (scan_headings_top_level Demo.abc_content
           [ {| h_level := 1; h_text := str "A"; h_path := str "A" |};
             {| h_level := 2; h_text := str "B"; h_path := str "A::B" |} ]
           []).
  - vm_compute. reflexivity.
  - reflexivity.
Defined.

Lemma run_tool_delete_request_witness :
  snd (@Tools.run_tool Demo.vault_rt Demo.demo_globals Demo2.delete_root
         (Demo.start [(str "a.md", str "text")]))
  = @Build_state Demo.vault_rt [(str "a.md", str "text")]
      [ {| req_method := DELETE;
           req_url := str "https://127.0.0.1:27124/vault/";
           req_headers := [(str "Authorization", str "Bearer secret")];
           req_data := None; req_verify := false; req_timeout := (3, 6)%Z |} ].
Proof.
  apply (@run_tool_delete_request Demo.vault_rt Demo.demo_globals
           Demo2.delete_root (Demo.start [(str "a.md", str "text")])
           (PyStr (str "/")) (PyBool true) []).
  - vm_compute. reflexivity.
  - vm_compute. reflexivity.
  - reflexivity.
  - vm_compute. reflexivity.
Defined.

Lemma run_tool_delete_not_a_string_witness :
  @Tools.run_tool Demo.vault_rt Demo.demo_globals Demo2.delete_number
    (Demo.start [(str "a.md", str "text")])
  = (Raise (AttributeError (str "'int' object has no attribute 'strip'")),
     Demo.start [(str "a.md", str "text")]).
Proof.
  apply (@run_tool_delete_not_a_string Demo.vault_rt Demo.demo_globals
           Demo2.delete_number (Demo.start [(str "a.md", str "text")])
           (PyInt 5) (PyBool true)).
  - vm_compute. reflexivity.
  - vm_compute. reflexivity.
  - reflexivity.
  - reflexivity.
  - discriminate.
Defined.

Lemma periodic_run_tool_rejects_witness :
  exists msg,
    @PeriodicNotesToolHandler.run_tool Demo.vault_rt Demo.demo_globals
      Demo2.period_hourly (Demo.start [])
    = (Raise (RuntimeError msg), Demo.start []).
Proof.
  apply (@periodic_run_tool_rejects Demo.vault_rt).
  right. exists (PyStr (str "hourly")). split; [vm_compute; reflexivity|].
  intros p Hp [= <-]. revert Hp.
  apply (bool_decide_unpack (str "hourly" ∉ PeriodicNotesToolHandler.valid_periods)).
  vm_compute. exact I.
Defined.


(** A note created on the storing server can be read back. *)
Example create_then_read :
  let s1 := snd (@create_or_update_note Demo2.store_rt Demo.client
                   (str "Notes/new.md") (str "hello") false (Demo2.start [])) in
  fst (@get_file_contents Demo2.store_rt Demo.client (str "Notes/new.md") s1)
  = Return (str "hello").
Proof. vm_compute. reflexivity. Qed.

(** With a leading backslash, the check for the note and the write of the
    note go to two different addresses. *)
Example create_checks_another_path :
  List.map req_url
    (sent (snd (@create_or_update_note Demo2.store_rt Demo.client
                  (ch_backslash :: str "a.md") (str "hello") false
                  (Demo2.start []))))
  = [ str "https://127.0.0.1:27124/vault/a.md";
      str "https://127.0.0.1:27124/vault//a.md" ].
Proof. vm_compute. reflexivity. Qed.
